(** * CarsXE Go client: request builder and transport

    A shallow embedding of the two implementations of the package
    ([main.go], which returns errors, and the older variant that panics),
    together with the parts of the Go standard library they call
    ([strings], [net/url], the request constructor of [net/http]).

    Go strings are byte sequences: they are modelled by [string], whose
    characters are the 256 byte values. *)

From Stdlib Require Import ZArith Ascii String DecimalString.
From stdpp Require Import gmap strings sorting list.

Local Open Scope Z_scope.

(** ** Errors, results and outcomes *)

(** Go [error] values.  Library errors keep their structure; [Error]
    (further down) renders the text that [err.Error()] returns. *)
Inductive error : Type :=
| errorString (text : string)            (* errors.New, fmt.Errorf without %w *)
| EscapeError (esc : string)             (* url.EscapeError *)
| InvalidHostError (c : string)          (* url.InvalidHostError *)
| InvalidPortError (colonPort : string)  (* "invalid port %q after host" *)
| url_Error (Op URL : string) (Err : error)   (* * url.Error *)
| wrapError (text : string) (Err : error).    (* fmt.Errorf with %w *)

(** A Go [(T, error)] return. *)
Inductive result (A : Type) : Type :=
| Ok (a : A)
| Err (e : error).
Arguments Ok {A} a.
Arguments Err {A} e.

Global Instance result_ret : MRet result := λ A a, Ok a.
Global Instance result_bind : MBind result := λ A B k r,
  match r with
  | Ok a => k a
  | Err e => Err e
  end.
Global Instance result_fmap : FMap result := λ A B f r,
  match r with
  | Ok a => Ok (f a)
  | Err e => Err e
  end.

(** ** Package [strings] *)

Module GoStrings.

Definition byte_le (a b : ascii) : bool :=
  (N_of_ascii a <=? N_of_ascii b)%N.

(** [lo <= c && c <= hi] *)
Definition between (lo hi c : ascii) : bool :=
  byte_le lo c && byte_le c hi.

Definition eqb (a b : ascii) : bool := Ascii.eqb a b.

(** [strings.HasPrefix(s, prefix)] *)
Definition HasPrefix (s prefix : string) : bool := String.prefix prefix s.

(** [strings.Cut(s, sep)] for a one-byte separator, the only kind the
    modelled code uses: the text before and after the first [sep], and
    whether [sep] occurs. *)
Fixpoint Cut (s : string) (sep : ascii) : string * string * bool :=
  match s with
  | EmptyString => (EmptyString, EmptyString, false)
  | String c s' =>
      if eqb c sep then (EmptyString, s', true)
      else let '(before, after, found) := Cut s' sep in
           (String c before, after, found)
  end.

(** [strings.Contains(s, sep)] for a one-byte [sep]. *)
Fixpoint Contains (s : string) (sep : ascii) : bool :=
  match s with
  | EmptyString => false
  | String c s' => eqb c sep || Contains s' sep
  end.

(** [strings.Count(s, sep)] for a one-byte [sep]. *)
Fixpoint Count (s : string) (sep : ascii) : nat :=
  match s with
  | EmptyString => O
  | String c s' => ((if eqb c sep then 1 else 0) + Count s' sep)%nat
  end.

(** [strings.HasSuffix(s, sep)] for a one-byte [sep]. *)
Fixpoint HasSuffix (s : string) (sep : ascii) : bool :=
  match s with
  | EmptyString => false
  | String c EmptyString => eqb c sep
  | String _ s' => HasSuffix s' sep
  end.

(** [s[:len(s)-1]] *)
Fixpoint dropLast (s : string) : string :=
  match s with
  | EmptyString => EmptyString
  | String _ EmptyString => EmptyString
  | String c s' => String c (dropLast s')
  end.

(** [strings.LastIndex(s, sep)] for a one-byte [sep], as the split it is
    used for: [Some (s[:i], s[i+1:])], or [None] when [i < 0]. *)
Fixpoint CutLast (s : string) (sep : ascii) : option (string * string) :=
  match s with
  | EmptyString => None
  | String c s' =>
      match CutLast s' sep with
      | Some (before, after) => Some (String c before, after)
      | None => if eqb c sep then Some (EmptyString, s') else None
      end
  end.

(** [strings.TrimLeft(s, cutset)] for a cutset of ASCII bytes. *)
Fixpoint TrimLeft (s cutset : string) : string :=
  match s with
  | EmptyString => EmptyString
  | String c s' => if Contains cutset c then TrimLeft s' cutset else s
  end.

(** [strings.TrimRight(s, cutset)] for a cutset of ASCII bytes. *)
Definition TrimRight (s cutset : string) : string :=
  String.rev (TrimLeft (String.rev s) cutset).

(** The UTF-8 encodings of the code points with the Unicode White_Space
    property, which is what [unicode.IsSpace] accepts: U+0009..U+000D,
    U+0020, U+0085, U+00A0, U+1680, U+2000..U+200A, U+2028, U+2029,
    U+202F, U+205F, U+3000. *)
Definition of_bytes (l : list N) : string :=
  string_of_list_ascii (ascii_of_N <$> l).

Definition White_Space : list string :=
  of_bytes <$>
  [ [9]; [10]; [11]; [12]; [13]; [32];
    [194; 133]; [194; 160]; [225; 154; 128];
    [226; 128; 128]; [226; 128; 129]; [226; 128; 130]; [226; 128; 131];
    [226; 128; 132]; [226; 128; 133]; [226; 128; 134]; [226; 128; 135];
    [226; 128; 136]; [226; 128; 137]; [226; 128; 138];
    [226; 128; 168]; [226; 128; 169]; [226; 128; 175]; [226; 129; 159];
    [227; 128; 128] ]%N.

(** Strip one leading white-space rune, if there is one. *)
Fixpoint stripPrefix (prefix s : string) : option string :=
  match prefix, s with
  | EmptyString, _ => Some s
  | String a p', String b s' => if eqb a b then stripPrefix p' s' else None
  | String _ _, EmptyString => None
  end.

Fixpoint stripSpace (ws : list string) (s : string) : option string :=
  match ws with
  | [] => None
  | w :: ws' =>
      match stripPrefix w s with
      | Some s' => Some s'
      | None => stripSpace ws' s
      end
  end.

(** [strings.TrimLeftFunc(s, unicode.IsSpace)].  Every rune takes at
    least one byte, so the length of [s] bounds the number of runes. *)
Fixpoint trimLeftSpace (ws : list string) (fuel : nat) (s : string) : string :=
  match fuel with
  | O => s
  | S fuel' =>
      match stripSpace ws s with
      | Some s' => trimLeftSpace ws fuel' s'
      | None => s
      end
  end.

Definition TrimLeftSpace (s : string) : string :=
  trimLeftSpace White_Space (String.length s) s.

(** [strings.TrimRightFunc(s, unicode.IsSpace)]: the last rune of [s] is
    a white-space rune exactly when [s] ends with one of the encodings
    above, that is when the reversed string starts with the reversed
    encoding. *)
Definition TrimRightSpace (s : string) : string :=
  String.rev
    (trimLeftSpace (String.rev <$> White_Space) (String.length s) (String.rev s)).

(** [strings.TrimSpace(s)]: all leading and trailing white space
    removed, as defined by Unicode. *)
Definition TrimSpace (s : string) : string :=
  TrimRightSpace (TrimLeftSpace s).

End GoStrings.

(** ** Map iteration

    The order in which [range] walks a map is unspecified and differs
    between runs: a run comes with an enumeration [range] of every map
    with string keys. *)
Class MapRange : Type := {
  range : ∀ {V : Type}, gmap string V → list (string * V);
  range_perm : ∀ (V : Type) (m : gmap string V), range m ≡ₚ map_to_list m;
}.

(** ** Package [net/url] (as of Go 1.22) *)

Module NetURL.
Import GoStrings.

Inductive encoding : Set :=
| encodePath
| encodePathSegment
| encodeHost
| encodeZone
| encodeUserPassword
| encodeQueryComponent
| encodeFragment.

Definition is_host_mode (mode : encoding) : bool :=
  match mode with encodeHost | encodeZone => true | _ => false end.

Definition is_query_mode (mode : encoding) : bool :=
  match mode with encodeQueryComponent => true | _ => false end.

Definition alphanum (c : ascii) : bool :=
  between "a" "z" c || between "A" "Z" c || between "0" "9" c.

(** [shouldEscape(c, mode)]: "034" is the double quote. *)
Definition shouldEscape (c : ascii) (mode : encoding) : bool :=
  if alphanum c then false
  else if is_host_mode mode
          && (Contains "!$&'()*+,;=:[]<>" c || eqb c "034") then false
  else if Contains "-_.~" c then false
  else if Contains "$&+,/:;=?@" c then
    match mode with
    | encodePath => eqb c "?"
    | encodePathSegment => Contains "/;,?" c
    | encodeUserPassword => Contains "@/?:" c
    | encodeQueryComponent => true
    | encodeFragment => false
    | encodeHost | encodeZone => true
    end
  else match mode with
       | encodeFragment => negb (Contains "!()*" c)
       | _ => true
       end.

Definition ishex (c : ascii) : bool :=
  between "0" "9" c || between "a" "f" c || between "A" "F" c.

Definition unhex (c : ascii) : N :=
  if between "0" "9" c then N_of_ascii c - 48
  else if between "a" "f" c then N_of_ascii c - 97 + 10
  else if between "A" "F" c then N_of_ascii c - 65 + 10
  else 0.

Definition upperhex (n : N) : ascii :=
  default "0"%char (String.get (N.to_nat n) "0123456789ABCDEF").

(** What [escape] writes for one byte. *)
Definition escape_byte (c : ascii) (mode : encoding) : string :=
  if shouldEscape c mode then
    if eqb c " " && is_query_mode mode then "+"
    else String "%" (String (upperhex (N_of_ascii c / 16))
                       (String (upperhex (N_of_ascii c mod 16)) ""))
  else String c "".

Fixpoint escape (s : string) (mode : encoding) : string :=
  match s with
  | EmptyString => EmptyString
  | String c s' => escape_byte c mode +:+ escape s' mode
  end.

Definition take3 (s : string) : string := String.substring 0 3 s.

(** [unescape(s, mode)].  The Go function validates in a first pass and
    decodes in a second; both walk the string from the left, so the
    first error found is the same when the passes are fused. *)
Fixpoint unescape (s : string) (mode : encoding) : result string :=
  match s with
  | EmptyString => Ok EmptyString
  | String "%" rest =>
      match rest with
      | String a (String b s') =>
          if negb (ishex a && ishex b) then Err (EscapeError (take3 s))
          else if match mode with
                  | encodeHost =>
                      (unhex a <? 8)%N && negb (eqb a "2" && eqb b "5")
                  | encodeZone =>
                      let v := ascii_of_N (unhex a * 16 + unhex b) in
                      negb (eqb a "2" && eqb b "5") && negb (eqb v " ")
                      && shouldEscape v encodeHost
                  | _ => false
                  end
               then Err (EscapeError (take3 s))
          else t ← unescape s' mode;
               Ok (String (ascii_of_N (unhex a * 16 + unhex b)) t)
      | _ => Err (EscapeError (take3 s))
      end
  | String c s' =>
      if is_host_mode mode && byte_le c "127" && shouldEscape c encodeHost
      then Err (InvalidHostError (String c ""))
      else t ← unescape s' mode;
           Ok (String (if eqb c "+" && is_query_mode mode then " "%char else c) t)
  end.

Definition QueryEscape (s : string) : string := escape s encodeQueryComponent.
Definition QueryUnescape (s : string) : result string :=
  unescape s encodeQueryComponent.

(** *** [url.Values] *)

Abbreviation Values := (gmap string (list string)).

Definition Get (v : Values) (key : string) : string :=
  match v !! key with
  | Some (x :: _) => x
  | _ => ""
  end.

Definition Set_ (v : Values) (key value : string) : Values :=
  <[key := [value]]> v.

Definition Add (v : Values) (key value : string) : Values :=
  <[key := default [] (v !! key) ++ [value]]> v.

(** [strings.Split(s, sep)]-like segmentation, for the loop of
    [parseQuery], which cuts the query at each "&". *)
Fixpoint segments (s : string) (sep : ascii) : list string :=
  match s with
  | EmptyString => [EmptyString]
  | String c s' =>
      if eqb c sep then EmptyString :: segments s' sep
      else match segments s' sep with
           | seg :: segs => String c seg :: segs
           | [] => [String c EmptyString]
           end
  end.

(** One turn of the loop of [parseQuery] on the segment [key]. *)
Definition parseQuery_step (st : Values * option error) (key : string)
  : Values * option error :=
  let '(m, err) := st in
  if Contains key ";" then
    (m, Some (errorString "invalid semicolon separator in query"))
  else if String.eqb key "" then (m, err)
  else
    let '(key, value, _) := Cut key "=" in
    match QueryUnescape key with
    | Err err1 => (m, Some (default err1 err))
    | Ok key =>
        match QueryUnescape value with
        | Err err1 => (m, Some (default err1 err))
        | Ok value => (Add m key value, err)
        end
    end.

Definition ParseQuery (query : string) : Values * option error :=
  foldl parseQuery_step (∅, None) (segments query "&").

(** [Values.Encode]: the keys are collected by ranging over the map,
    sorted, and written with their values in order. *)
Definition Encode `{MapRange} (v : Values) : string :=
  let keys := merge_sort String.le ((range v).*1) in
  foldl (λ buf k,
           let keyEscaped := QueryEscape k in
           foldl (λ buf x,
                    (if String.eqb buf "" then buf else buf +:+ "&")
                      +:+ keyEscaped +:+ "=" +:+ QueryEscape x)
                 buf (default [] (v !! k)))
        "" keys.

(** *** [url.URL] *)

Record Userinfo : Set := {
  username : string;
  password : string;
  passwordSet : bool;
}.

Record URL : Set := {
  Scheme : string;
  Opaque : string;
  User : option Userinfo;
  Host : string;
  Path : string;
  RawPath : string;
  OmitHost : bool;
  ForceQuery : bool;
  RawQuery : string;
  Fragment : string;
  RawFragment : string;
}.

Definition emptyURL : URL :=
  {| Scheme := ""; Opaque := ""; User := None; Host := ""; Path := "";
     RawPath := ""; OmitHost := false; ForceQuery := false; RawQuery := "";
     Fragment := ""; RawFragment := "" |}.

Definition setRawQuery (u : URL) (q : string) : URL :=
  {| Scheme := Scheme u; Opaque := Opaque u; User := User u; Host := Host u;
     Path := Path u; RawPath := RawPath u; OmitHost := OmitHost u;
     ForceQuery := ForceQuery u; RawQuery := q;
     Fragment := Fragment u; RawFragment := RawFragment u |}.

(** [u.Query()]: the parsed [RawQuery], malformed pairs dropped. *)
Definition Query (u : URL) : Values := (ParseQuery (RawQuery u)).1.

Definition stringContainsCTLByte (s : string) : bool :=
  existsb (λ b, negb (byte_le " " b) || eqb b "127") (list_ascii_of_string s).

Definition toLowerByte (c : ascii) : ascii :=
  if between "A" "Z" c then ascii_of_N (N_of_ascii c + 32) else c.

Fixpoint ToLower (s : string) : string :=
  match s with
  | EmptyString => EmptyString
  | String c s' => String (toLowerByte c) (ToLower s')
  end.

(** The loop of [getScheme]: [Ok None] where Go returns [("", rawURL)]. *)
Fixpoint schemeSplit (first : bool) (s : string)
  : result (option (string * string)) :=
  match s with
  | EmptyString => Ok None
  | String c s' =>
      let continue :=
        r ← schemeSplit false s';
        Ok match r with
           | Some (scheme, rest) => Some (String c scheme, rest)
           | None => None
           end in
      if between "a" "z" c || between "A" "Z" c then continue
      else if between "0" "9" c || Contains "+-." c then
        if first then Ok None else continue
      else if eqb c ":" then
        if first then Err (errorString "missing protocol scheme")
        else Ok (Some (EmptyString, s'))
      else Ok None
  end.

Definition getScheme (rawURL : string) : result (string * string) :=
  r ← schemeSplit true rawURL;
  Ok (default (EmptyString, rawURL) r).

Definition validUserinfo (s : string) : bool :=
  forallb (λ r, alphanum r || Contains "-._:~!$&'()*+,;=%@" r)
          (list_ascii_of_string s).

Definition validOptionalPort (port : string) : bool :=
  match port with
  | EmptyString => true
  | String c digits =>
      eqb c ":" && forallb (between "0" "9") (list_ascii_of_string digits)
  end.

(** [strings.Index(s, "%25")] as a split: [Some (s[:i], s[i:])]. *)
Fixpoint cutAtZone (s : string) : option (string * string) :=
  if HasPrefix s "%25" then Some (EmptyString, s)
  else match s with
       | EmptyString => None
       | String c s' =>
           match cutAtZone s' with
           | Some (before, after) => Some (String c before, after)
           | None => None
           end
       end.

Definition parseHost (host : string) : result string :=
  if HasPrefix host "[" then
    match CutLast host "]" with
    | None => Err (errorString "missing ']' in host")
    | Some (literal, colonPort) =>
        if negb (validOptionalPort colonPort)
        then Err (InvalidPortError colonPort)
        else match cutAtZone literal with
             | Some (address, zone) =>
                 host1 ← unescape address encodeHost;
                 host2 ← unescape zone encodeZone;
                 host3 ← unescape (String "]" colonPort) encodeHost;
                 Ok (host1 +:+ host2 +:+ host3)
             | None => unescape host encodeHost
             end
    end
  else
    match CutLast host ":" with
    | Some (_, port) =>
        if negb (validOptionalPort (String ":" port))
        then Err (InvalidPortError (String ":" port))
        else unescape host encodeHost
    | None => unescape host encodeHost
    end.

Definition parseAuthority (authority : string)
  : result (option Userinfo * string) :=
  match CutLast authority "@" with
  | None => host ← parseHost authority; Ok (None, host)
  | Some (userinfo, hostport) =>
      host ← parseHost hostport;
      if negb (validUserinfo userinfo)
      then Err (errorString "net/url: invalid userinfo")
      else if negb (Contains userinfo ":") then
        userinfo ← unescape userinfo encodeUserPassword;
        Ok (Some {| username := userinfo; password := "";
                    passwordSet := false |}, host)
      else
        let '(username, password, _) := Cut userinfo ":" in
        username ← unescape username encodeUserPassword;
        password ← unescape password encodeUserPassword;
        Ok (Some {| username := username; password := password;
                    passwordSet := true |}, host)
  end.

Definition nonempty (s : string) : bool := negb (String.eqb s "").

(** [parse(rawURL, viaRequest)], with [u.setPath(rest)] at its end. *)
Definition parse (rawURL : string) (viaRequest : bool) : result URL :=
  if stringContainsCTLByte rawURL
  then Err (errorString "net/url: invalid control character in URL")
  else if String.eqb rawURL "" && viaRequest
  then Err (errorString "empty url")
  else if String.eqb rawURL "*"
  then Ok {| Scheme := ""; Opaque := ""; User := None; Host := "";
             Path := "*"; RawPath := ""; OmitHost := false;
             ForceQuery := false; RawQuery := ""; Fragment := "";
             RawFragment := "" |}
  else
    '(scheme, rest) ← getScheme rawURL;
    let scheme := ToLower scheme in
    let '(rest, forceQuery, rawQuery) :=
      if HasSuffix rest "?" && (Count rest "?" =? 1)%nat
      then (dropLast rest, true, EmptyString)
      else let '(rest, rawQuery, _) := Cut rest "?" in
           (rest, false, rawQuery) in
    if negb (HasPrefix rest "/") && nonempty scheme
    then Ok {| Scheme := scheme; Opaque := rest; User := None; Host := "";
               Path := ""; RawPath := ""; OmitHost := false;
               ForceQuery := forceQuery; RawQuery := rawQuery;
               Fragment := ""; RawFragment := "" |}
    else if negb (HasPrefix rest "/") && viaRequest
    then Err (errorString "invalid URI for request")
    else if negb (HasPrefix rest "/") && Contains (Cut rest "/").1.1 ":"
    then Err (errorString "first path segment in URL cannot contain colon")
    else
      '(user, host, rest, omitHost) ←
        (if (nonempty scheme
             || negb viaRequest && negb (HasPrefix rest "///"))
            && HasPrefix rest "//"
         then
           let '(authority, path, found) :=
             Cut (String.substring 2 (String.length rest) rest) "/" in
           '(user, host) ← parseAuthority authority;
           Ok (user, host, if found then String "/" path else EmptyString,
               false)
         else Ok (None, EmptyString, rest,
                  nonempty scheme && HasPrefix rest "/"));
      path ← unescape rest encodePath;
      Ok {| Scheme := scheme; Opaque := ""; User := user; Host := host;
            Path := path;
            RawPath := if String.eqb rest (escape path encodePath)
                       then EmptyString else rest;
            OmitHost := omitHost;
            ForceQuery := forceQuery; RawQuery := rawQuery;
            Fragment := ""; RawFragment := "" |}.

Definition wrapParse {A} (url : string) (r : result A) : result A :=
  match r with
  | Ok a => Ok a
  | Err e => Err (url_Error "parse" url e)
  end.

(** [u.setFragment(f)] *)
Definition setFragment (u : URL) (f : string) : result URL :=
  frag ← unescape f encodeFragment;
  Ok {| Scheme := Scheme u; Opaque := Opaque u; User := User u;
        Host := Host u; Path := Path u; RawPath := RawPath u;
        OmitHost := OmitHost u; ForceQuery := ForceQuery u;
        RawQuery := RawQuery u;
        Fragment := frag;
        RawFragment := if String.eqb f (escape frag encodeFragment)
                       then EmptyString else f |}.

(** [url.Parse(rawURL)] *)
Definition Parse (rawURL : string) : result URL :=
  let '(u, frag, _) := Cut rawURL "#" in
  url ← wrapParse u (parse u false);
  if String.eqb frag "" then Ok url
  else wrapParse rawURL (setFragment url frag).

Definition validEncoded (s : string) (mode : encoding) : bool :=
  forallb (λ c, Contains "!$&'()*+,;=:@[]%" c || negb (shouldEscape c mode))
          (list_ascii_of_string s).

Definition EscapedPath (u : URL) : string :=
  if nonempty (RawPath u) && validEncoded (RawPath u) encodePath
     && match unescape (RawPath u) encodePath with
        | Ok p => String.eqb p (Path u)
        | Err _ => false
        end
  then RawPath u
  else if String.eqb (Path u) "*" then "*"
  else escape (Path u) encodePath.

Definition EscapedFragment (u : URL) : string :=
  if nonempty (RawFragment u) && validEncoded (RawFragment u) encodeFragment
     && match unescape (RawFragment u) encodeFragment with
        | Ok f => String.eqb f (Fragment u)
        | Err _ => false
        end
  then RawFragment u
  else escape (Fragment u) encodeFragment.

Definition Userinfo_String (ui : Userinfo) : string :=
  escape (username ui) encodeUserPassword
  +:+ (if passwordSet ui
       then ":" +:+ escape (password ui) encodeUserPassword
       else "").

(** What [u.String()] writes before the query: scheme, authority or
    opaque part, and path. *)
Definition String_hier (u : URL) : string :=
  let buf := if nonempty (Scheme u) then Scheme u +:+ ":" else "" in
  if nonempty (Opaque u) then buf +:+ Opaque u
  else
    let buf :=
      if nonempty (Scheme u) || nonempty (Host u) || bool_decide (User u ≠ None)
      then
        if OmitHost u && String.eqb (Host u) "" && bool_decide (User u = None)
        then buf
        else
          buf
          +:+ (if nonempty (Host u) || nonempty (Path u)
                  || bool_decide (User u ≠ None) then "//" else "")
          +:+ match User u with
              | Some ui => Userinfo_String ui +:+ "@"
              | None => ""
              end
          +:+ (if nonempty (Host u) then escape (Host u) encodeHost else "")
      else buf in
    let path := EscapedPath u in
    let buf :=
      if nonempty path && negb (HasPrefix path "/") && nonempty (Host u)
      then buf +:+ "/" else buf in
    let buf :=
      if String.eqb buf "" && Contains (Cut path "/").1.1 ":"
      then buf +:+ "./" else buf in
    buf +:+ path.

(** [u.String()] *)
Definition String_ (u : URL) : string :=
  String_hier u
  +:+ (if ForceQuery u || nonempty (RawQuery u)
       then "?" +:+ RawQuery u else "")
  +:+ (if nonempty (Fragment u) then "#" +:+ EscapedFragment u else "").

End NetURL.

(** ** Package [net/http]: requests, responses, clients *)

(** A [context.Context] that is not nil: the background context or one
    made by the caller. *)
Inductive Context : Set :=
| context_Background
| context_Derived (id : N).

Module NetHTTP.
Import GoStrings.

Abbreviation Header := (gmap string (list string)).

(** [h.Set(key, value)] for a key in canonical form. *)
Definition Header_Set (h : Header) (key value : string) : Header :=
  <[key := [value]]> h.

Record Request : Type := {
  Method : string;
  URL : NetURL.URL;
  Headers : Header;
  Body : option string;
  Host : string;
  ctx : Context;
}.

(** A response as the package sees it: the status code, and what
    [io.ReadAll(resp.Body)] returns. *)
Record Response : Type := {
  StatusCode : Z;
  ReadAll_Body : result string;
}.

(** [http.Client]: [Do] sends the request over the network, whose
    behaviour is a function of the request. *)
Record Client : Type := {
  Timeout : Z;
  Do : Request → result Response;
}.

(** [hasPort] and [removeEmptyPort] *)
Definition hasPort (s : string) : bool :=
  match CutLast s ":" with
  | Some (_, after) => negb (Contains after "]")
  | None => false
  end.

Definition removeEmptyPort (host : string) : string :=
  if hasPort host && HasSuffix host ":" then dropLast host else host.

(** [http.NewRequestWithContext(ctx, method, url, body)] for the methods
    GET and POST and a context that is not nil. *)
Definition NewRequestWithContext (ctx : Context)
    (method url : string) (body : option string) : result Request :=
  u ← NetURL.Parse url;
  let host := removeEmptyPort (NetURL.Host u) in
  let u := {| NetURL.Scheme := NetURL.Scheme u;
              NetURL.Opaque := NetURL.Opaque u;
              NetURL.User := NetURL.User u;
              NetURL.Host := host;
              NetURL.Path := NetURL.Path u;
              NetURL.RawPath := NetURL.RawPath u;
              NetURL.OmitHost := NetURL.OmitHost u;
              NetURL.ForceQuery := NetURL.ForceQuery u;
              NetURL.RawQuery := NetURL.RawQuery u;
              NetURL.Fragment := NetURL.Fragment u;
              NetURL.RawFragment := NetURL.RawFragment u |} in
  Ok {| Method := method; URL := u; Headers := ∅; Body := body;
        Host := host; ctx := ctx |}.

(** [http.NewRequest(method, url, body)] *)
Definition NewRequest (method url : string) (body : option string)
  : result Request :=
  NewRequestWithContext context_Background method url body.

(** [req.Header.Set(key, value)] *)
Definition setHeader (req : Request) (key value : string) : Request :=
  {| Method := Method req; URL := URL req;
     Headers := Header_Set (Headers req) key value;
     Body := Body req; Host := Host req; ctx := ctx req |}.

End NetHTTP.

(** ** What the other packages contribute

    The text quoting of [strconv], the decoder and the string quoting of
    [encoding/json], and the network behind the default transport of
    [net/http], are outside the package and stay abstract; [any] is the
    type of decoded JSON values. *)
Class GoLib : Type := {
  any : Type;
  strconv_Quote : string → string;
  json_Unmarshal : string → result (gmap string any);
  json_string : string → string;
  http_DefaultTransport : NetHTTP.Request → result NetHTTP.Response;
}.

(** [err.Error()] *)
Fixpoint Error `{GoLib} (err : error) : string :=
  match err with
  | errorString text => text
  | EscapeError esc => "invalid URL escape " +:+ strconv_Quote esc
  | InvalidHostError c =>
      "invalid character " +:+ strconv_Quote c +:+ " in host name"
  | InvalidPortError colonPort =>
      "invalid port " +:+ strconv_Quote colonPort +:+ " after host"
  | url_Error op url inner =>
      op +:+ " " +:+ strconv_Quote url +:+ ": " +:+ Error inner
  | wrapError text _ => text
  end.

(** [strconv.Itoa], the [%d] of [fmt]. *)
Definition Itoa (n : Z) : string := NilZero.string_of_int (Z.to_int n).

(** [json.NewEncoder(&buf).Encode(body)] for a [map[string]string]: an
    object with the keys in sorted order, followed by a newline. *)
Definition json_Encode `{MapRange, GoLib} (body : gmap string string) : string :=
  "{"
  +:+ String.concat ","
        ((λ k, json_string k +:+ ":" +:+ json_string (default "" (body !! k)))
           <$> merge_sort String.le ((range body).*1))
  +:+ "}" +:+ String "010" "".

(** ** What a call does

    The calls a method makes to the URL builder and to the network are
    recorded in order. *)
Inductive event : Type :=
| CallBuildURL (endpoint : string) (params : gmap string string)
| HTTPDo (req : NetHTTP.Request).

(** A computation that records events and returns [(T, error)]. *)
Definition IO (A : Type) : Type := list event * result A.

Global Instance io_ret : MRet IO := λ A a, ([], Ok a).
Global Instance io_bind : MBind IO := λ A B k m,
  match m with
  | (t, Ok a) => let '(t', r) := k a in (t ++ t', r)
  | (t, Err e) => (t, Err e)
  end.

Definition lift {A} (r : result A) : IO A := ([], r).
Definition emit (e : event) : IO unit := ([e], Ok ()).

(** What a function that may panic yields. *)
Inductive outcome (A : Type) : Type :=
| Return (a : A)
| Panic (v : string).
Arguments Return {A} a.
Arguments Panic {A} v.

Global Instance outcome_ret : MRet outcome := λ A a, Return a.
Global Instance outcome_bind : MBind outcome := λ A B k r,
  match r with
  | Return a => k a
  | Panic v => Panic v
  end.

(** A computation that records events and returns or panics. *)
Definition IOP (A : Type) : Type := list event * outcome A.

Global Instance iop_ret : MRet IOP := λ A a, ([], Return a).
Global Instance iop_bind : MBind IOP := λ A B k m,
  match m with
  | (t, Return a) => let '(t', r) := k a in (t ++ t', r)
  | (t, Panic v) => (t, Panic v)
  end.

Definition liftP {A} (r : outcome A) : IOP A := ([], r).
Definition emitP (e : event) : IOP unit := ([e], Return ()).

(** ** The client configuration (the same in both implementations) *)

Record Client : Type := {
  apiKey : string;
  baseURL : string;
  source : string;
  httpClient : NetHTTP.Client;
}.

(** An [Option] updates the client under construction. *)
Definition Option : Type := Client → Client.

Definition WithBaseURL (u : string) : Option := λ c,
  {| apiKey := apiKey c; baseURL := GoStrings.TrimRight u "/";
     source := source c; httpClient := httpClient c |}.

Definition WithHTTPClient (h : NetHTTP.Client) : Option := λ c,
  {| apiKey := apiKey c; baseURL := baseURL c;
     source := source c; httpClient := h |}.

Definition WithSource (src : string) : Option := λ c,
  {| apiKey := apiKey c; baseURL := baseURL c;
     source := src; httpClient := httpClient c |}.

(** [time.Second], in nanoseconds. *)
Definition Second : Z := 1000000000.

Definition New `{GoLib} (apiKey : string) (opts : list Option) : Client :=
  foldl (λ c o, o c)
        {| apiKey := apiKey;
           baseURL := "https://api.carsxe.com";
           source := "go";
           httpClient := {| NetHTTP.Timeout := 15 * Second;
                            NetHTTP.Do := http_DefaultTransport |} |}
        opts.

(** ** [main.go]: the implementation that returns errors *)

Module Carsxe.
Import GoStrings NetURL.

Section Methods.
Context `{MapRange, GoLib}.

(** A nil [params] ranges like an empty map: both are [∅]. *)
Definition buildURL_URL (c : Client) (endpoint : string)
    (params : gmap string string) : result URL :=
  u ← Parse (baseURL c +:+ "/" +:+ TrimLeft endpoint "/");
  let q := Query u in
  let q := Set_ q "key" (apiKey c) in
  let q := Set_ q "source" (source c) in
  let q := foldl (λ q '(k, v), if nonempty v then Add q k v else q)
                 q (range params) in
  Ok (setRawQuery u (Encode q)).

(** [buildURL]: [buildURL_URL] is its body up to [u.RawQuery = ...]. *)
Definition buildURL (c : Client) (endpoint : string)
    (params : gmap string string) : result string :=
  String_ <$> buildURL_URL c endpoint params.

Definition doRequest (c : Client) (req : NetHTTP.Request)
  : IO (gmap string any) :=
  _ ← emit (HTTPDo req);
  resp ← lift (NetHTTP.Do (httpClient c) req);
  bodyBytes ← lift (NetHTTP.ReadAll_Body resp);
  if (NetHTTP.StatusCode resp <? 200) || (NetHTTP.StatusCode resp >=? 300) then
    lift (Err (errorString
                 ("carsxe: non-2xx response (" +:+ Itoa (NetHTTP.StatusCode resp)
                  +:+ "): " +:+ bodyBytes)))
  else if (String.length bodyBytes =? 0)%nat then
    lift (Ok ∅)
  else
    match json_Unmarshal bodyBytes with
    | Err err =>
        lift (Err (wrapError
                     ("carsxe: decode error: " +:+ Error err
                      +:+ " (body=" +:+ bodyBytes +:+ ")") err))
    | Ok out => lift (Ok out)
    end.

Definition Get (ctx : Context) (c : Client) (endpoint : string)
    (params : gmap string string) : IO (gmap string any) :=
  _ ← emit (CallBuildURL endpoint params);
  urlStr ← lift (buildURL c endpoint params);
  req ← lift (NetHTTP.NewRequestWithContext ctx "GET" urlStr None);
  doRequest c req.

(** [body] is nil or a [map[string]string], the only values the
    package passes. *)
Definition postJSON (ctx : Context) (c : Client) (endpoint : string)
    (body : option (gmap string string)) : IO (gmap string any) :=
  _ ← emit (CallBuildURL endpoint ∅);
  urlStr ← lift (buildURL c endpoint ∅);
  let buf := match body with
             | Some body => json_Encode body
             | None => EmptyString
             end in
  req ← lift (NetHTTP.NewRequestWithContext ctx "POST" urlStr (Some buf));
  let req := NetHTTP.setHeader req "Content-Type" "application/json" in
  doRequest c req.

Definition Specs ctx c params := Get ctx c "specs" params.
Definition MarketValue ctx c params := Get ctx c "v2/marketvalue" params.
Definition History ctx c params := Get ctx c "history" params.
Definition Recalls ctx c params := Get ctx c "v1/recalls" params.
Definition InternationalVINDecoder ctx c params :=
  Get ctx c "v1/international-vin-decoder" params.
Definition PlateDecoder ctx c params := Get ctx c "v2/platedecoder" params.

Definition PlateImageRecognition (ctx : Context) (c : Client)
    (imageURL : string) : IO (gmap string any) :=
  if String.eqb (TrimSpace imageURL) "" then
    lift (Err (errorString "image URL required"))
  else postJSON ctx c "platerecognition" (Some {["image" := imageURL]}).

Definition VinOCR (ctx : Context) (c : Client)
    (imageURL : string) : IO (gmap string any) :=
  if String.eqb (TrimSpace imageURL) "" then
    lift (Err (errorString "image URL required"))
  else postJSON ctx c "v1/vinocr" (Some {["image" := imageURL]}).

Definition YearMakeModel ctx c params := Get ctx c "v1/ymm" params.
Definition Images ctx c params := Get ctx c "images" params.
Definition ObdCodesDecoder ctx c params :=
  Get ctx c "obdcodesdecoder" params.

End Methods.
End Carsxe.

(** ** The older implementation, which panics instead of returning errors *)

Module CarsxePanic.
Import GoStrings NetURL.

Section Methods.
Context `{MapRange, GoLib}.

Definition buildURL_URL (c : Client) (endpoint : string)
    (params : gmap string string) : outcome URL :=
  match Parse (baseURL c +:+ "/" +:+ TrimLeft endpoint "/") with
  | Err err => Panic ("Failed to parse URL: " +:+ Error err)
  | Ok u =>
      let q := Query u in
      let q := Set_ q "key" (apiKey c) in
      let q := Set_ q "source" (source c) in
      let q := foldl (λ q '(k, v), if nonempty v then Add q k v else q)
                     q (range params) in
      Return (setRawQuery u (Encode q))
  end.

(** [buildURL]: [buildURL_URL] is its body up to [u.RawQuery = ...]. *)
Definition buildURL (c : Client) (endpoint : string)
    (params : gmap string string) : outcome string :=
  u ← buildURL_URL c endpoint params; Return (String_ u).

Definition doRequest (c : Client) (req : NetHTTP.Request)
  : IOP (gmap string any) :=
  _ ← emitP (HTTPDo req);
  match NetHTTP.Do (httpClient c) req with
  | Err err => liftP (Panic ("HTTP request failed: " +:+ Error err))
  | Ok resp =>
      match NetHTTP.ReadAll_Body resp with
      | Err err =>
          liftP (Panic ("Failed to read response body: " +:+ Error err))
      | Ok bodyBytes =>
          if (String.length bodyBytes =? 0)%nat then liftP (Return ∅)
          else
            match json_Unmarshal bodyBytes with
            | Err err =>
                liftP (Panic ("Failed to decode JSON: " +:+ Error err
                              +:+ " (body=" +:+ bodyBytes +:+ ")"))
            | Ok out => liftP (Return out)
            end
      end
  end.

Definition Get (c : Client) (endpoint : string)
    (params : gmap string string) : IOP (gmap string any) :=
  _ ← emitP (CallBuildURL endpoint params);
  urlStr ← liftP (buildURL c endpoint params);
  match NetHTTP.NewRequest "GET" urlStr None with
  | Err err => liftP (Panic ("Failed to create request: " +:+ Error err))
  | Ok req => doRequest c req
  end.

Definition postJSON (c : Client) (endpoint : string)
    (body : option (gmap string string)) : IOP (gmap string any) :=
  _ ← emitP (CallBuildURL endpoint ∅);
  urlStr ← liftP (buildURL c endpoint ∅);
  let buf := match body with
             | Some body => json_Encode body
             | None => EmptyString
             end in
  match NetHTTP.NewRequest "POST" urlStr (Some buf) with
  | Err err => liftP (Panic ("Failed to create request: " +:+ Error err))
  | Ok req =>
      let req := NetHTTP.setHeader req "Content-Type" "application/json" in
      doRequest c req
  end.

Definition Specs c params := Get c "specs" params.
Definition MarketValue c params := Get c "v2/marketvalue" params.
Definition History c params := Get c "history" params.
Definition Recalls c params := Get c "v1/recalls" params.
Definition InternationalVINDecoder c params :=
  Get c "v1/international-vin-decoder" params.
Definition PlateDecoder c params := Get c "v2/platedecoder" params.

Definition PlateImageRecognition (c : Client) (imageURL : string)
  : IOP (gmap string any) :=
  if String.eqb (TrimSpace imageURL) "" then
    liftP (Panic "image URL required")
  else postJSON c "platerecognition" (Some {["image" := imageURL]}).

Definition VinOCR (c : Client) (imageURL : string)
  : IOP (gmap string any) :=
  if String.eqb (TrimSpace imageURL) "" then
    liftP (Panic "image URL required")
  else postJSON c "v1/vinocr" (Some {["image" := imageURL]}).

Definition YearMakeModel c params := Get c "v1/ymm" params.
Definition Images c params := Get c "images" params.
Definition ObdCodesDecoder c params := Get c "obdcodesdecoder" params.

End Methods.
End CarsxePanic.

(** ** Vocabulary of the properties *)

(** [contains s t]: the text [t] occurs in [s]. *)
Definition contains (s t : string) : Prop :=
  ∃ pre post, s = pre +:+ t +:+ post.

(** Bytes that separate the pairs of a query or end it. *)
Definition query_special (c : ascii) : bool := GoStrings.Contains "&=;#?" c.

(** The keys of a map in sorted order. *)
Definition sorted_keys {V : Type} (m : gmap string V) : list string :=
  merge_sort String.le ((map_to_list m).*1).

(** The name/value pairs of a [url.Values] in the order [Encode] writes
    them, and the text of one pair. *)
Definition pairs (v : gmap string (list string)) : list (string * string) :=
  k ← sorted_keys v; (λ x, (k, x)) <$> default [] (v !! k).

Definition pair_text (p : string * string) : string :=
  NetURL.QueryEscape p.1 +:+ "=" +:+ NetURL.QueryEscape p.2.

(** What [Encode] does to its buffer for one pair. *)
Definition join_step (buf p : string) : string :=
  (if String.eqb buf "" then buf else buf +:+ "&") +:+ p.

(** All pairs after the first, each with its separator. *)
Definition tail_text (l : list string) : string :=
  foldr (λ p acc, "&" +:+ p +:+ acc) "" l.

(** No name of the map has an empty list of values. *)
Definition wf_values (v : gmap string (list string)) : Prop :=
  ∀ k xs, v !! k = Some xs → xs ≠ [].

(** The query [buildURL] starts from: the one of the parsed URL, with
    [key] and [source] set. *)
Definition client_query (c : Client) (u : NetURL.URL) : gmap string (list string) :=
  NetURL.Set_ (NetURL.Set_ (NetURL.Query u) "key" (apiKey c))
              "source" (source c).

(** The loop of [buildURL] over the parameters, in the order [l]. *)
Definition add_params (q : gmap string (list string))
    (l : list (string * string)) : gmap string (list string) :=
  foldl (λ q '(k, v), if NetURL.nonempty v then NetURL.Add q k v else q) q l.

(** The value a caller gave for [k], if it is not empty. *)
Definition caller_values (params : gmap string string) (k : string)
  : list string :=
  match params !! k with
  | Some v => if NetURL.nonempty v then [v] else []
  | None => []
  end.

(** What comes after the query in [u.String()]. *)
Definition fragment_text (u : NetURL.URL) : string :=
  if NetURL.nonempty (NetURL.Fragment u)
  then "#" +:+ NetURL.EscapedFragment u else "".

(** Either implementation builds the URL [u'] for these arguments. *)
Definition builds `{MapRange, GoLib} (c : Client) (endpoint : string)
    (params : gmap string string) (u' : NetURL.URL) : Prop :=
  Carsxe.buildURL_URL c endpoint params = Ok u'
  ∨ CarsxePanic.buildURL_URL c endpoint params = Return u'.

(** The values the query of a built URL has under the name [k]. *)
Definition query_values (r : result NetURL.URL) (k : string)
  : result (option (list string)) :=
  (λ u, NetURL.Query u !! k) <$> r.

(** The requests a run sent, and their URLs as text. *)
Definition requests (t : list event) : list NetHTTP.Request :=
  omap (λ e, match e with HTTPDo req => Some req | _ => None end) t.

Definition request_urls (t : list event) : list string :=
  (λ req, NetURL.String_ (NetHTTP.URL req)) <$> requests t.

(** [star ws s]: [s] is a concatenation of strings from [ws]. *)
Inductive star (ws : list string) : string → Prop :=
| star_nil : star ws ""
| star_cons (w s : string) : w ∈ ws → star ws s → star ws (w +:+ s).

(** The string is empty or consists of white space only: it is a sequence
    of UTF-8 encoded code points with the Unicode White_Space property. *)
Definition only_whitespace (s : string) : Prop :=
  star GoStrings.White_Space s.

(** The facts about a list of encodings that trimming relies on: no
    encoding is empty, and stripping a leading encoding removes exactly
    that encoding. *)
Definition exact_strip (ws : list string) : Prop :=
  GoStrings.stripSpace ws "" = None
  ∧ ∀ w s, w ∈ ws → w ≠ "" ∧ GoStrings.stripSpace ws (w +:+ s) = Some s.

(** The JSON text of the object with the single field [image] set to
    [U], as the encoder writes it: with a newline at its end. *)
Definition image_body `{GoLib} (U : string) : string :=
  "{" +:+ json_string "image" +:+ ":" +:+ json_string U +:+ "}"
  +:+ String "010" "".

(** The run [t] called the URL builder for [endpoint] without parameters
    and then sent one request: the POST request for [url] whose body is
    [image_body U] and whose Content-Type header is application/json. *)
Definition sends_image_post `{GoLib} (t : list event) (endpoint : string)
    (ctx : Context) (url U : string) : Prop :=
  ∃ req0 req,
    NetHTTP.NewRequestWithContext ctx "POST" url (Some (image_body U)) = Ok req0
    ∧ req = NetHTTP.setHeader req0 "Content-Type" "application/json"
    ∧ t = [CallBuildURL endpoint ∅; HTTPDo req]
    ∧ NetHTTP.Method req = "POST"
    ∧ NetHTTP.Body req = Some (image_body U)
    ∧ NetHTTP.Headers req !! "Content-Type" = Some ["application/json"].

(** What the run [t] of an image endpoint did: when the URL for
    [endpoint] builds and the request constructor accepts it, the run
    sent the one POST request described by [sends_image_post]; when it
    does not, the run stopped after the call to the URL builder and sent
    nothing. *)
Definition image_run `{MapRange, GoLib} (t : list event) (c : Client)
    (endpoint : string) (ctx : Context) (U : string) : Prop :=
  match Carsxe.buildURL c endpoint ∅ with
  | Ok url =>
      match NetURL.Parse url with
      | Ok _ => sends_image_post t endpoint ctx url U
      | Err _ => t = [CallBuildURL endpoint ∅]
      end
  | Err _ => t = [CallBuildURL endpoint ∅]
  end.





(** Hosts made of lower-case letters, digits, dots and hyphens. *)
Definition host_byte (c : ascii) : bool :=
  GoStrings.between "a" "z" c || GoStrings.between "0" "9" c
  || GoStrings.Contains "-." c.

Definition plain_host (h : string) : Prop :=
  forallb host_byte (list_ascii_of_string h) = true.

(** ** A runtime and clients for the examples *)

(** Maps are walked in the order of [map_to_list]. *)
Definition example_range : MapRange :=
  {| range := λ V m, map_to_list m;
     range_perm := λ V m, reflexivity (map_to_list m) |}.

(** Quoting adds the quotes (which is what Go does for text without
    quotes, backslashes or control characters); the decoder knows the
    empty object only. *)
Definition example_quote (s : string) : string :=
  String "034" (s +:+ String "034" "").

Definition example_lib : GoLib :=
  {| any := string;
     strconv_Quote := example_quote;
     json_Unmarshal := λ s,
       if String.eqb s "{}" then Ok ∅
       else Err (errorString "invalid character in JSON input");
     json_string := example_quote;
     http_DefaultTransport := λ _,
       Err (errorString "dial tcp: network is unreachable") |}.

(** An [http.Client] that answers every request with [resp]. *)
Definition serve (resp : NetHTTP.Response) : NetHTTP.Client :=
  {| NetHTTP.Timeout := 15 * Second; NetHTTP.Do := λ _, Ok resp |}.

Definition example_response (status : Z) (body : string) : NetHTTP.Response :=
  {| NetHTTP.StatusCode := status; NetHTTP.ReadAll_Body := Ok body |}.

Definition example_client (resp : NetHTTP.Response) : Client :=
  New (H := example_lib) "KEY" [WithHTTPClient (serve resp)].

(** The client of the examples: key [KEY], the default base URL and
    source tag, and a transport that answers every request with status
    200 and an empty body. *)
Definition example_c : Client := example_client (example_response 200 "").

(** The example client with another base URL. *)
Definition example_client_at (base : string) : Client :=
  New (H := example_lib) "KEY"
      [WithBaseURL base; WithHTTPClient (serve (example_response 200 ""))].

(** The URL [https://api.carsxe.com<path>?<query>]. *)
Definition api_url (path query : string) : NetURL.URL :=
  {| NetURL.Scheme := "https"; NetURL.Opaque := ""; NetURL.User := None;
     NetURL.Host := "api.carsxe.com"; NetURL.Path := path;
     NetURL.RawPath := ""; NetURL.OmitHost := false;
     NetURL.ForceQuery := false; NetURL.RawQuery := query;
     NetURL.Fragment := ""; NetURL.RawFragment := "" |}.

(** A request of the examples. *)
Definition example_request : NetHTTP.Request :=
  {| NetHTTP.Method := "GET";
     NetHTTP.URL := api_url "/specs" "key=KEY&source=go&vin=WBAFR7C57CC811956";
     NetHTTP.Headers := ∅;
     NetHTTP.Body := None;
     NetHTTP.Host := "api.carsxe.com";
     NetHTTP.ctx := context_Background |}.

(** The image of the README examples. *)
Definition example_image : string :=
  "https://api.carsxe.com/img/apis/plate_recognition.JPG".

(** A string of white space: a space, a tab, a no-break space (U+00A0)
    and a line separator (U+2028). *)
Definition example_blank : string :=
  GoStrings.of_bytes [32; 9; 194; 160; 226; 128; 168]%N.

(** ** Vocabulary of the further properties *)

(** A run of [n] slashes. *)
Fixpoint slashes (n : nat) : string :=
  match n with
  | O => EmptyString
  | S n => String "/" (slashes n)
  end.

(** The three options of the package, as data. *)
Inductive option_spec : Type :=
| SetBaseURL (u : string)
| SetHTTPClient (h : NetHTTP.Client)
| SetSource (src : string).

Definition to_Option (o : option_spec) : Option :=
  match o with
  | SetBaseURL u => WithBaseURL u
  | SetHTTPClient h => WithHTTPClient h
  | SetSource src => WithSource src
  end.

(** The arguments of the options of each kind, in the order given. *)
Definition given_bases (os : list option_spec) : list string :=
  omap (λ o, match o with SetBaseURL u => Some u | _ => None end) os.

Definition given_clients (os : list option_spec) : list NetHTTP.Client :=
  omap (λ o, match o with SetHTTPClient h => Some h | _ => None end) os.

Definition given_sources (os : list option_spec) : list string :=
  omap (λ o, match o with SetSource s => Some s | _ => None end) os.

(** Endpoint paths made of letters, digits, hyphens, underscores, dots
    and slashes. *)
Definition path_byte (c : ascii) : bool :=
  NetURL.alphanum c || GoStrings.Contains "-_./" c.

Definition plain_path (p : string) : Prop :=
  forallb path_byte (list_ascii_of_string p) = true.

(** Bytes that [QueryEscape] and [Encode] write: no control bytes, no
    question mark or number sign. *)
Definition query_byte (c : ascii) : bool :=
  GoStrings.byte_le " " c && negb (GoStrings.eqb c "127")
  && negb (GoStrings.Contains "#?" c).

Definition query_text (q : string) : Prop :=
  forallb query_byte (list_ascii_of_string q) = true.

(** The URL [https://<host><path>?<query>]. *)
Definition https_url (host path query : string) : NetURL.URL :=
  {| NetURL.Scheme := "https"; NetURL.Opaque := ""; NetURL.User := None;
     NetURL.Host := host; NetURL.Path := path;
     NetURL.RawPath := ""; NetURL.OmitHost := false;
     NetURL.ForceQuery := false; NetURL.RawQuery := query;
     NetURL.Fragment := ""; NetURL.RawFragment := "" |}.

(** The query of a request for a base URL without a query of its own:
    [key] and [source], then the caller's parameters. *)
Definition request_query (c : Client) (params : gmap string string)
  : gmap string (list string) :=
  add_params
    (NetURL.Set_ (NetURL.Set_ ∅ "key" (apiKey c)) "source" (source c))
    (map_to_list params).

(** The request [method https://<host><path>?<query>] with the headers
    and the body given. *)
Definition https_request (ctx : Context) (method host path query : string)
    (headers : NetHTTP.Header) (body : option string) : NetHTTP.Request :=
  {| NetHTTP.Method := method;
     NetHTTP.URL := https_url host path query;
     NetHTTP.Headers := headers;
     NetHTTP.Body := body;
     NetHTTP.Host := host;
     NetHTTP.ctx := ctx |}.

(** The text [https://<host>/<endpoint>?<query>], the endpoint without
    its leading slashes. *)
Definition https_text (host endpoint query : string) : string :=
  "https://" +:+ host +:+ "/" +:+ GoStrings.TrimLeft endpoint "/"
  +:+ "?" +:+ query.

(** The buffer [postJSON] hands to the request constructor: the JSON
    text of [body], and nothing for a nil body. *)
Definition json_buffer `{MapRange, GoLib}
    (body : option (gmap string string)) : string :=
  match body with
  | Some body => json_Encode body
  | None => EmptyString
  end.

(** The headers of a request with the Content-Type of JSON only. *)
Definition json_header : NetHTTP.Header :=
  {[ "Content-Type" := ["application/json"] ]}.

(** The values a request carries under the name [k], for a base URL
    without a query of its own. *)
Definition sent_values (c : Client) (params : gmap string string)
    (k : string) : option (list string) :=
  if decide (k = "key") then Some (apiKey c :: caller_values params k)
  else if decide (k = "source") then Some (source c :: caller_values params k)
  else match caller_values params k with
       | [] => None
       | l => Some l
       end.

(** The query string of a request without parameters. *)
Definition key_source_text (c : Client) : string :=
  "key=" +:+ NetURL.QueryEscape (apiKey c)
  +:+ "&source=" +:+ NetURL.QueryEscape (source c).

(** The run called the URL builder for [endpoint] and [params], and then
    sent the request [req] and nothing else. *)
Definition sends (t : list event) (endpoint : string)
    (params : gmap string string) (req : NetHTTP.Request) : Prop :=
  t = [CallBuildURL endpoint params; HTTPDo req].

(** The GET request for [https://<host><path>] with the query of the
    client and [params]: no headers and no body. *)
Definition get_request `{MapRange} (ctx : Context) (c : Client)
    (host path : string) (params : gmap string string) : NetHTTP.Request :=
  https_request ctx "GET" host path
    (NetURL.Encode (request_query c params)) ∅ None.

(** The POST request for [https://<host><path>] with the query of the
    client only, the Content-Type of JSON and the body [body]. *)
Definition post_request (ctx : Context) (c : Client)
    (host path body : string) : NetHTTP.Request :=
  https_request ctx "POST" host path (key_source_text c) json_header
    (Some body).

(** [agrees r r']: the run [r'] of the older implementation made the
    calls and sent the requests of the run [r] of [main.go], and returned
    the result of [r] when [r] returned one. *)
Definition agrees {A : Type} (r : IO A) (r' : IOP A) : Prop :=
  r'.1 = r.1 ∧ ∀ m, r.2 = Ok m → r'.2 = Return m.

(** What a GET request and a JSON POST request of the package look
    like. *)
Definition is_get (ctx : Context) (req : NetHTTP.Request) : Prop :=
  NetHTTP.Method req = "GET"
  ∧ NetHTTP.Body req = None
  ∧ NetHTTP.Headers req = ∅
  ∧ NetHTTP.ctx req = ctx.

Definition is_json_post (ctx : Context) (buf : string)
    (req : NetHTTP.Request) : Prop :=
  NetHTTP.Method req = "POST"
  ∧ NetHTTP.Body req = Some buf
  ∧ NetHTTP.Headers req = json_header
  ∧ NetHTTP.ctx req = ctx.

(** The run [t] is the call to the URL builder for [endpoint] and
    [params], followed by at most one request, which satisfies [P]. *)
Definition run_of (t : list event) (endpoint : string)
    (params : gmap string string) (P : NetHTTP.Request → Prop) : Prop :=
  t = [CallBuildURL endpoint params]
  ∨ ∃ req, t = [CallBuildURL endpoint params; HTTPDo req] ∧ P req.

(** What the transport and the reading of the body give for [req]. *)
Definition received (c : Client) (req : NetHTTP.Request) : result string :=
  resp ← NetHTTP.Do (httpClient c) req; NetHTTP.ReadAll_Body resp.

(** The parameters of the README example of [Specs]. *)
Definition example_vin : gmap string string :=
  {[ "vin" := "WBAFR7C57CC811956" ]}.

(** A client with the default transport, which in the examples cannot
    reach the network. *)
Definition example_offline : Client := New (H := example_lib) "KEY" [].



(** * Properties *)

(** ** Strings *)

Section string_facts.
Import GoStrings.

Lemma app_cons c s t : String c s +:+ t = String c (s +:+ t).
Proof. reflexivity. Qed.

Lemma app_empty_l s : "" +:+ s = s.
Proof. reflexivity. Qed.

Lemma app_empty_r s : s +:+ "" = s.
Proof. induction s as [|c s IH]; [done|]. by rewrite app_cons, IH. Qed.

Lemma app_assoc' s1 s2 s3 : (s1 +:+ s2) +:+ s3 = s1 +:+ (s2 +:+ s3).
Proof.
  induction s1 as [|c s1 IH]; [done|]. by rewrite !app_cons, IH.
Qed.

Lemma length_app s t :
  String.length (s +:+ t) = (String.length s + String.length t)%nat.
Proof.
  induction s as [|c s IH]; [done|]. rewrite app_cons. simpl. by rewrite IH.
Qed.

Lemma eqb_empty_iff s : String.eqb s "" = true ↔ s = "".
Proof. apply String.eqb_eq. Qed.

Lemma app_eq_empty s t : s +:+ t = "" → s = "" ∧ t = "".
Proof. destruct s; [done|]. by rewrite app_cons. Qed.

Lemma Contains_app s t c :
  Contains (s +:+ t) c = Contains s c || Contains t c.
Proof.
  induction s as [|a s IH]; [done|].
  rewrite app_cons. simpl. rewrite IH. by rewrite orb_assoc.
Qed.

Lemma Cut_absent s sep :
  Contains s sep = false → Cut s sep = (s, "", false).
Proof.
  induction s as [|a s IH]; [done|]. simpl.
  intros [Ha Hs]%orb_false_iff. by rewrite Ha, (IH Hs).
Qed.

Lemma Cut_first s t sep :
  Contains s sep = false → Cut (s +:+ String sep t) sep = (s, t, true).
Proof.
  induction s as [|a s IH].
  - intros _. rewrite app_empty_l. simpl.
    unfold eqb. by rewrite Ascii.eqb_refl.
  - simpl. intros [Ha Hs]%orb_false_iff. by rewrite Ha, (IH Hs).
Qed.

End string_facts.

(** ** Query escaping *)

Section escape_facts.
Import GoStrings NetURL.

Lemma escape_byte_unescape c s :
  unescape (escape_byte c encodeQueryComponent +:+ s) encodeQueryComponent
  = String c <$> unescape s encodeQueryComponent.
Proof.
  destruct c as [[] [] [] [] [] [] [] []]; reflexivity.
Qed.

Lemma QueryUnescape_QueryEscape s : QueryUnescape (QueryEscape s) = Ok s.
Proof.
  unfold QueryUnescape, QueryEscape.
  induction s as [|c s IH]; [done|].
  simpl. by rewrite escape_byte_unescape, IH.
Qed.

Lemma escape_byte_plain c x :
  query_special x = true →
  Contains (escape_byte c encodeQueryComponent) x = false.
Proof.
  destruct x as [[] [] [] [] [] [] [] []];
    intros Hx; vm_compute in Hx; try discriminate Hx; clear Hx;
    destruct c as [[] [] [] [] [] [] [] []]; reflexivity.
Qed.

Lemma QueryEscape_plain s x :
  query_special x = true → Contains (QueryEscape s) x = false.
Proof.
  intros Hx. unfold QueryEscape.
  induction s as [|c s IH]; [done|].
  simpl. by rewrite Contains_app, escape_byte_plain, IH.
Qed.

Lemma escape_byte_nonempty c mode : escape_byte c mode ≠ "".
Proof.
  unfold escape_byte.
  destruct (shouldEscape c mode); [|done].
  by destruct (eqb c " " && is_query_mode mode).
Qed.

End escape_facts.

(** ** Splitting a query and writing it *)

Section query_facts.
Import GoStrings NetURL.

Lemma segments_absent s sep : Contains s sep = false → segments s sep = [s].
Proof.
  induction s as [|a s IH]; [done|]. simpl.
  intros [Ha Hs]%orb_false_iff. by rewrite Ha, (IH Hs).
Qed.

Lemma segments_first s t sep :
  Contains s sep = false →
  segments (s +:+ String sep t) sep = s :: segments t sep.
Proof.
  induction s as [|a s IH].
  - intros _. simpl. unfold eqb. by rewrite Ascii.eqb_refl.
  - simpl. intros [Ha Hs]%orb_false_iff. by rewrite Ha, (IH Hs).
Qed.

Lemma join_step_nonempty buf p : buf ≠ "" → join_step buf p ≠ "".
Proof.
  intros Hbuf. unfold join_step.
  destruct (String.eqb_spec buf ""); [done|].
  destruct buf; [done|]. by rewrite !app_cons.
Qed.

Lemma foldl_join_step buf l :
  buf ≠ "" → foldl join_step buf l = buf +:+ tail_text l.
Proof.
  revert buf. induction l as [|p l IH]; intros buf Hbuf; simpl.
  - by rewrite app_empty_r.
  - rewrite IH by by apply join_step_nonempty.
    unfold join_step. destruct (String.eqb_spec buf ""); [done|].
    by rewrite !app_assoc'.
Qed.

Lemma segments_tail_text p l :
  Contains p "&" = false →
  Forall (λ p, Contains p "&" = false) l →
  segments (p +:+ tail_text l) "&" = p :: l.
Proof.
  intros Hp Hl. revert p Hp. induction Hl as [|p' l Hp' Hl IH]; intros p Hp.
  - simpl. rewrite app_empty_r. by apply segments_absent.
  - change (tail_text (p' :: l)) with (String "&" (p' +:+ tail_text l)).
    rewrite (segments_first p _ "&" Hp). f_equal. by apply IH.
Qed.

Lemma pair_text_plain p x :
  query_special x = true → x ≠ "="%char → Contains (pair_text p) x = false.
Proof.
  intros Hx Hne. unfold pair_text.
  rewrite !Contains_app, !QueryEscape_plain by done.
  clear Hx. destruct x as [[] [] [] [] [] [] [] []]; done.
Qed.

Lemma pair_text_nonempty p : pair_text p ≠ "".
Proof.
  unfold pair_text. intros [_ ?]%app_eq_empty. done.
Qed.

Lemma parseQuery_step_pair m err p :
  parseQuery_step (m, err) (pair_text p) = (Add m p.1 p.2, err).
Proof.
  unfold parseQuery_step.
  rewrite (pair_text_plain p ";") by done.
  destruct (String.eqb_spec (pair_text p) "") as [He|_].
  { by destruct (pair_text_nonempty p). }
  change (pair_text p)
    with (QueryEscape p.1 +:+ String "=" (QueryEscape p.2)).
  rewrite Cut_first by by apply QueryEscape_plain.
  by rewrite !QueryUnescape_QueryEscape.
Qed.

Lemma foldl_parseQuery_step st l :
  foldl parseQuery_step st (pair_text <$> l)
  = (foldl (λ m p, Add m p.1 p.2) st.1 l, st.2).
Proof.
  revert st. induction l as [|p l IH]; intros [m err]; [done|].
  rewrite fmap_cons. cbn [foldl]. by rewrite parseQuery_step_pair, IH.
Qed.

(** Parsing what [join_step] wrote gives the pairs back. *)
Lemma ParseQuery_join l :
  ParseQuery (foldl join_step "" (pair_text <$> l))
  = (foldl (λ m p, Add m p.1 p.2) ∅ l, None).
Proof.
  unfold ParseQuery. destruct l as [|p l]; [done|].
  rewrite fmap_cons. cbn [foldl].
  change (join_step "" (pair_text p)) with (pair_text p).
  rewrite foldl_join_step by apply pair_text_nonempty.
  rewrite segments_tail_text.
  - by rewrite (foldl_parseQuery_step (∅, None) (p :: l)).
  - by apply pair_text_plain.
  - apply Forall_fmap, Forall_true. intros p'. by apply pair_text_plain.
Qed.

End query_facts.

(** ** [Values]: encoding does not depend on the iteration order, and
       parsing undoes it *)

Section values_facts.
Import GoStrings NetURL.
Context {rng : MapRange}.

Lemma range_keys_sorted {V : Type} (m : gmap string V) :
  merge_sort String.le ((range m).*1) = sorted_keys m.
Proof.
  apply (Sorted_unique String.le).
  - apply Sorted_merge_sort; apply _.
  - apply Sorted_merge_sort; apply _.
  - unfold sorted_keys. rewrite !merge_sort_Permutation.
    by rewrite range_perm.
Qed.

Lemma elem_of_sorted_keys {V : Type} (m : gmap string V) k :
  k ∈ sorted_keys m ↔ is_Some (m !! k).
Proof.
  unfold sorted_keys. rewrite merge_sort_Permutation.
  rewrite list_elem_of_fmap. split.
  - intros [[k' x] [-> Hx%elem_of_map_to_list]]. by exists x.
  - intros [x Hx]. exists (k, x). by rewrite elem_of_map_to_list.
Qed.

Lemma NoDup_sorted_keys {V : Type} (m : gmap string V) :
  NoDup (sorted_keys m).
Proof.
  unfold sorted_keys. rewrite merge_sort_Permutation.
  apply NoDup_fst_map_to_list.
Qed.

Lemma foldl_join_keys (v : Values) ks buf :
  foldl (λ buf k,
           foldl (λ buf x, join_step buf (pair_text (k, x)))
                 buf (default [] (v !! k)))
        buf ks
  = foldl join_step buf
      (pair_text <$> (k ← ks; (λ x, (k, x)) <$> default [] (v !! k))).
Proof.
  revert buf. induction ks as [|k ks IH]; intros buf; [done|].
  cbn [foldl]. rewrite IH. rewrite bind_cons, fmap_app, foldl_app.
  f_equal. by rewrite <- list_fmap_compose, foldl_fmap.
Qed.

Lemma Encode_pairs (v : Values) :
  Encode v = foldl join_step "" (pair_text <$> pairs v).
Proof.
  unfold Encode, pairs. rewrite range_keys_sorted.
  apply (foldl_join_keys v (sorted_keys v) "").
Qed.

Lemma Add_lookup (m : Values) k x j :
  Add m k x !! j
  = if decide (j = k) then Some (default [] (m !! k) ++ [x]) else m !! j.
Proof.
  unfold Add. rewrite lookup_insert.
  repeat case_decide; congruence.
Qed.

Lemma foldl_Add_values (m : Values) k xs j :
  foldl (λ m p, Add m p.1 p.2) m ((λ x, (k, x)) <$> xs) !! j
  = if decide (j = k ∧ xs ≠ [])
    then Some (default [] (m !! k) ++ xs) else m !! j.
Proof.
  revert m. induction xs as [|x xs IH]; intros m.
  - simpl. destruct (decide _) as [[_ ?]|]; done.
  - rewrite fmap_cons. cbn [foldl fst snd]. rewrite IH, !Add_lookup.
    repeat case_decide; destruct_and?; simplify_eq/=; try naive_solver.
    all: try by rewrite <- app_assoc.
    all: destruct xs; [by rewrite ?app_nil_r|naive_solver].
Qed.

Lemma foldl_Add_keys (f : string → list string) (m : Values) ks j :
  NoDup ks →
  foldl (λ m p, Add m p.1 p.2) m (k ← ks; (λ x, (k, x)) <$> f k) !! j
  = if decide (j ∈ ks ∧ f j ≠ [])
    then Some (default [] (m !! j) ++ f j) else m !! j.
Proof.
  intros Hks. revert m.
  induction Hks as [|k ks Hk Hks IH]; intros m.
  - cbn [mbind list_bind foldl].
    destruct (decide _) as [[Hj _]|]; [inversion Hj|done].
  - rewrite bind_cons, foldl_app, IH, !foldl_Add_values.
    repeat case_decide; destruct_and?; simplify_eq/=; try done.
    all: exfalso; set_unfold; intuition congruence.
Qed.

Lemma foldl_Add_pairs (v : Values) :
  wf_values v → foldl (λ m p, Add m p.1 p.2) ∅ (pairs v) = v.
Proof.
  intros Hwf. apply map_eq. intros j. unfold pairs.
  rewrite (foldl_Add_keys (λ k, default [] (v !! k)))
    by apply NoDup_sorted_keys.
  rewrite lookup_empty. destruct (v !! j) as [xs|] eqn:Hj; simpl.
  - rewrite decide_True; [done|]. split.
    + apply elem_of_sorted_keys. by rewrite Hj.
    + by apply (Hwf j).
  - rewrite decide_False; [done|]. by intros [_ ?].
Qed.

(** Parsing an encoded query gives the values back. *)
Lemma ParseQuery_Encode (v : Values) :
  wf_values v → ParseQuery (Encode v) = (v, None).
Proof.
  intros Hwf. by rewrite Encode_pairs, ParseQuery_join, foldl_Add_pairs.
Qed.

Lemma wf_values_empty : wf_values ∅.
Proof. intros k xs. by rewrite lookup_empty. Qed.

Lemma wf_values_Add v k x : wf_values v → wf_values (Add v k x).
Proof.
  intros Hwf j xs. rewrite Add_lookup. case_decide; [|by apply Hwf].
  intros [= <-]. by destruct (default [] (v !! k)).
Qed.

Lemma wf_values_Set v k x : wf_values v → wf_values (Set_ v k x).
Proof.
  intros Hwf j xs. unfold Set_. rewrite lookup_insert.
  case_decide; [by intros [= <-]|by apply Hwf].
Qed.

Lemma wf_values_parseQuery_step st seg :
  wf_values st.1 → wf_values (parseQuery_step st seg).1.
Proof.
  destruct st as [m err]. unfold parseQuery_step. simpl. intros Hwf.
  destruct (Contains seg ";"); [done|].
  destruct (String.eqb seg ""); [done|].
  destruct (Cut seg "=") as [[key value] found].
  destruct (QueryUnescape key); [|done].
  destruct (QueryUnescape value); [|done].
  by apply wf_values_Add.
Qed.

Lemma wf_values_ParseQuery query : wf_values (ParseQuery query).1.
Proof.
  unfold ParseQuery. generalize (segments query "&") as segs.
  assert (wf_values (∅, None : option error).1) as Hwf
    by apply wf_values_empty.
  revert Hwf. generalize (∅ : Values, None : option error) as st.
  intros st Hwf segs. revert st Hwf.
  induction segs as [|seg segs IH]; intros st Hwf; [done|].
  simpl. by apply IH, wf_values_parseQuery_step.
Qed.

End values_facts.

(** ** The URL builder *)

Section buildURL_facts.
Import GoStrings NetURL.
Context `{MapRange, GoLib}.

Lemma add_params_lookup (q : Values) l k :
  NoDup (l.*1) →
  add_params q l !! k
  = match (list_to_map l : gmap string string) !! k with
    | Some v => if nonempty v then Some (default [] (q !! k) ++ [v])
                else q !! k
    | None => q !! k
    end.
Proof.
  revert q. induction l as [|[i x] l IH]; intros q Hl; [done|].
  apply NoDup_cons in Hl as [Hi Hl].
  cbn [add_params foldl]. fold (add_params (if nonempty x then Add q i x else q) l).
  rewrite IH by done. cbn [list_to_map foldr uncurry fst snd].
  rewrite lookup_insert. case_decide as Hik.
  - subst k. rewrite (not_elem_of_list_to_map_1 _ i) by done.
    destruct (nonempty x); [|done]. rewrite Add_lookup. by rewrite decide_True.
  - destruct (nonempty x); [|done]. rewrite Add_lookup.
    by rewrite decide_False by done.
Qed.

Lemma add_params_range (q : Values) (params : gmap string string) k :
  add_params q (range params) !! k
  = match params !! k with
    | Some v => if nonempty v then Some (default [] (q !! k) ++ [v])
                else q !! k
    | None => q !! k
    end.
Proof.
  assert (NoDup ((range params).*1)) as Hnd.
  { rewrite range_perm. apply NoDup_fst_map_to_list. }
  rewrite add_params_lookup by done.
  assert ((list_to_map (range params) : gmap string string) = params) as ->;
    [|done].
  rewrite <- (list_to_map_to_list params) at 2.
  apply list_to_map_proper; [done|apply range_perm].
Qed.

Lemma wf_values_add_params (q : Values) l :
  wf_values q → wf_values (add_params q l).
Proof.
  revert q. induction l as [|[i x] l IH]; intros q Hq; [done|].
  cbn [add_params foldl]. apply IH.
  destruct (nonempty x); [by apply wf_values_Add|done].
Qed.

Lemma wf_values_client_query c u : wf_values (client_query c u).
Proof. do 2 apply wf_values_Set. apply wf_values_ParseQuery. Qed.

Lemma Query_setRawQuery_Encode u (q : Values) :
  wf_values q → Query (setRawQuery u (Encode q)) = q.
Proof. intros Hq. unfold Query. simpl. by rewrite ParseQuery_Encode. Qed.

(** [buildURL], step by step. *)
Lemma buildURL_URL_Ok c endpoint params u' :
  Carsxe.buildURL_URL c endpoint params = Ok u' ↔
  ∃ u, Parse (baseURL c +:+ "/" +:+ TrimLeft endpoint "/") = Ok u
     ∧ u' = setRawQuery u
              (Encode (add_params (client_query c u) (range params))).
Proof.
  unfold Carsxe.buildURL_URL.
  destruct (Parse _) as [u|e]; simpl.
  - split; [intros [= <-]; eauto|]. by intros (? & [= <-] & ->).
  - split; [done|]. by intros (? & [=] & _).
Qed.

(** The two implementations build the same URL. *)
Lemma buildURL_URL_Return c endpoint params u' :
  CarsxePanic.buildURL_URL c endpoint params = Return u' ↔
  Carsxe.buildURL_URL c endpoint params = Ok u'.
Proof.
  unfold CarsxePanic.buildURL_URL, Carsxe.buildURL_URL.
  destruct (Parse _) as [u|e]; simpl; [|done].
  split; by intros [= <-].
Qed.

(** The query of the URL that was built, name by name. *)
Lemma built_query_lookup c endpoint params u' :
  Carsxe.buildURL_URL c endpoint params = Ok u' →
  ∃ u, Parse (baseURL c +:+ "/" +:+ TrimLeft endpoint "/") = Ok u
     ∧ ∀ k, Query u' !! k
            = match params !! k with
              | Some v =>
                  if nonempty v
                  then Some (default [] (client_query c u !! k) ++ [v])
                  else client_query c u !! k
              | None => client_query c u !! k
              end.
Proof.
  intros (u & Hu & ->)%buildURL_URL_Ok. exists u. split; [done|]. intros k.
  rewrite Query_setRawQuery_Encode
    by apply wf_values_add_params, wf_values_client_query.
  apply add_params_range.
Qed.

End buildURL_facts.

(** ** Claims about the URL builder *)

Section buildURL_claims.
Import GoStrings NetURL.

(** The query a run builds does not depend on the order in which that
    run walks the parameters. *)
Lemma add_params_any_range (r1 r2 : MapRange) (q : Values)
    (params : gmap string string) :
  add_params q (@range r1 _ params) = add_params q (@range r2 _ params).
Proof.
  apply map_eq. intros k.
  by rewrite (@add_params_range r1), (@add_params_range r2).
Qed.

Lemma Encode_any_range (r1 r2 : MapRange) (v : Values) :
  @Encode r1 v = @Encode r2 v.
Proof. by rewrite (@Encode_pairs r1), (@Encode_pairs r2). Qed.

Lemma buildURL_URL_any_range (r1 r2 : MapRange) c endpoint params :
  @Carsxe.buildURL_URL r1 c endpoint params
  = @Carsxe.buildURL_URL r2 c endpoint params.
Proof.
  unfold Carsxe.buildURL_URL.
  destruct (Parse _) as [u|e]; simpl; [|done].
  f_equal. f_equal.
  change (@Encode r1 (add_params (client_query c u) (@range r1 _ params))
          = @Encode r2 (add_params (client_query c u) (@range r2 _ params))).
  by rewrite (add_params_any_range r1 r2), (Encode_any_range r1 r2).
Qed.

(** C10: [buildURL] is deterministic.  Two runs, each with its own
    iteration order for maps, build the identical URL string from the same
    client, endpoint and parameters, in both implementations; the encoded
    query is the text of the pairs in sorted key order, whatever the
    order of iteration. *)
Theorem buildURL_deterministic (r1 r2 : MapRange) (lib : GoLib)
    (c : Client) (endpoint : string) (params : gmap string string) :
  @Carsxe.buildURL r1 c endpoint params
  = @Carsxe.buildURL r2 c endpoint params
  ∧ @CarsxePanic.buildURL r1 lib c endpoint params
    = @CarsxePanic.buildURL r2 lib c endpoint params
  ∧ ∀ v : Values,
      @Encode r1 v = foldl join_step "" (pair_text <$> pairs v).
Proof.
  split; [|split].
  - unfold Carsxe.buildURL. by rewrite (buildURL_URL_any_range r1 r2).
  - unfold CarsxePanic.buildURL.
    assert (@CarsxePanic.buildURL_URL r1 lib c endpoint params
            = @CarsxePanic.buildURL_URL r2 lib c endpoint params) as ->; [|done].
    pose proof (buildURL_URL_any_range r1 r2 c endpoint params) as Heq.
    unfold CarsxePanic.buildURL_URL, Carsxe.buildURL_URL in *.
    destruct (Parse _) as [u|e]; simpl in *; [|done].
    by injection Heq as ->.
  - intros v. apply Encode_pairs.
Qed.

End buildURL_claims.

Section buildURL_claims_2.
Import GoStrings NetURL.
Context `{MapRange, GoLib}.

Lemma builds_Ok c endpoint params u' :
  builds c endpoint params u' ↔ Carsxe.buildURL_URL c endpoint params = Ok u'.
Proof. unfold builds. rewrite buildURL_URL_Return. tauto. Qed.

Lemma client_query_key c u : client_query c u !! "key" = Some [apiKey c].
Proof.
  unfold client_query, Set_.
  rewrite lookup_insert_ne by done. by rewrite lookup_insert_eq.
Qed.

Lemma client_query_source c u :
  client_query c u !! "source" = Some [source c].
Proof. unfold client_query, Set_. by rewrite lookup_insert_eq. Qed.

Lemma client_query_other c u k :
  k ≠ "key" → k ≠ "source" → client_query c u !! k = Query u !! k.
Proof.
  intros ??. unfold client_query, Set_. by rewrite !lookup_insert_ne.
Qed.

Lemma String_setRawQuery u q :
  q ≠ "" →
  String_ (setRawQuery u q) = String_hier u +:+ "?" +:+ q +:+ fragment_text u.
Proof.
  intros Hq. unfold String_, fragment_text.
  change (String_hier (setRawQuery u q)) with (String_hier u).
  change (EscapedFragment (setRawQuery u q)) with (EscapedFragment u).
  change (Fragment (setRawQuery u q)) with (Fragment u).
  change (RawQuery (setRawQuery u q)) with q.
  assert (nonempty q = true) as ->.
  { unfold nonempty. by destruct (String.eqb_spec q ""). }
  by rewrite orb_true_r.
Qed.

Lemma Encode_nonempty (v : Values) k x xs :
  v !! k = Some (x :: xs) → Encode v ≠ "".
Proof.
  intros Hk. rewrite Encode_pairs.
  assert ((k, x) ∈ pairs v) as Hin.
  { unfold pairs. apply list_elem_of_bind. exists k. split.
    - rewrite Hk. simpl. by left.
    - apply elem_of_sorted_keys. by rewrite Hk. }
  destruct (pairs v) as [|p l]; [by inversion Hin|].
  rewrite fmap_cons. cbn [foldl].
  change (join_step "" (pair_text p)) with (pair_text p).
  rewrite foldl_join_step by apply pair_text_nonempty.
  intros [? _]%app_eq_empty. by apply (pair_text_nonempty p).
Qed.

(** C1, as amended: [buildURL], in both implementations, adds no query
    entry for a parameter whose value is the empty string.  Under the
    name of such a parameter the query string of the built URL holds
    exactly what it holds without the parameter: the values of the query
    string embedded in the base URL and endpoint, with [key] and [source]
    set to the client's.  So for a name other than [key] and [source]
    that the embedded query string lacks, there is no entry at all. *)
Theorem buildURL_adds_no_empty_value (c : Client) (endpoint : string)
    (params : gmap string string) (u' : URL) (k : string) :
  builds c endpoint params u' →
  params !! k = Some "" →
  ∃ u, Parse (baseURL c +:+ "/" +:+ TrimLeft endpoint "/") = Ok u
     ∧ Query u' !! k = client_query c u !! k
     ∧ (k ≠ "key" → k ≠ "source" → Query u !! k = None →
        Query u' !! k = None).
Proof.
  intros Hb%builds_Ok Hk.
  destruct (built_query_lookup _ _ _ _ Hb) as (u & Hu & Hq).
  exists u. split; [done|].
  assert (Query u' !! k = client_query c u !! k) as Heq.
  { by rewrite Hq, Hk. }
  split; [done|]. intros ?? Hnone.
  by rewrite Heq, client_query_other.
Qed.

(** C2, as amended: the query string of the URL [buildURL] builds, in
    both implementations, has the client's API key as the first value of
    [key] and the client's source tag as the first value of [source]
    (what a first-value lookup reads), whatever the URL's embedded query
    said.  A caller-supplied, non-empty parameter named [key] or [source]
    is neither overwritten nor rejected: it follows the client's value as
    a second value of that name. *)
Theorem buildURL_key_source_first (c : Client) (endpoint : string)
    (params : gmap string string) (u' : URL) :
  builds c endpoint params u' →
  Query u' !! "key" = Some (apiKey c :: caller_values params "key")
  ∧ Query u' !! "source" = Some (source c :: caller_values params "source")
  ∧ Get (Query u') "key" = apiKey c
  ∧ Get (Query u') "source" = source c
  ∧ ∃ u, String_ u'
         = String_hier u +:+ "?" +:+ RawQuery u' +:+ fragment_text u.
Proof.
  intros Hb%builds_Ok.
  destruct (built_query_lookup _ _ _ _ Hb) as (u & Hu & Hq).
  assert (Query u' !! "key" = Some (apiKey c :: caller_values params "key"))
    as Hkey.
  { rewrite Hq, client_query_key. unfold caller_values.
    destruct (params !! "key") as [v|]; [|done]. by destruct (nonempty v). }
  assert (Query u' !! "source"
          = Some (source c :: caller_values params "source")) as Hsrc.
  { rewrite Hq, client_query_source. unfold caller_values.
    destruct (params !! "source") as [v|]; [|done]. by destruct (nonempty v). }
  split; [done|]. split; [done|].
  split; [unfold Get; by rewrite Hkey|].
  split; [unfold Get; by rewrite Hsrc|].
  apply buildURL_URL_Ok in Hb as (u0 & Hu0 & ->).
  exists u0. apply String_setRawQuery.
  apply (Encode_nonempty _ "key" (apiKey c) (caller_values params "key")).
  rewrite add_params_range, client_query_key. unfold caller_values.
  destruct (params !! "key") as [v|]; [|done]. by destruct (nonempty v).
Qed.

End buildURL_claims_2.

Section buildURL_examples.
Import GoStrings NetURL.

Lemma buildURL_adds_no_empty_value_witness :
  ∃ u, Parse "https://api.carsxe.com/specs" = Ok u
     ∧ Query (api_url "/specs" "key=KEY&source=go") !! "vin"
       = client_query example_c u !! "vin"
     ∧ ("vin" ≠ "key" → "vin" ≠ "source" → Query u !! "vin" = None →
        Query (api_url "/specs" "key=KEY&source=go") !! "vin" = None).
Proof.
  apply (@buildURL_adds_no_empty_value example_range example_lib
           example_c "specs" {["vin" := ""]}).
  - left. vm_compute. reflexivity.
  - vm_compute. reflexivity.
Defined.

(** C1 fails as stated: with the endpoint [specs?vin=] the parameter
    [vin], whose value is the empty string, has an entry in the query
    string of the built URL, and its value is sent as empty. *)
Lemma buildURL_sends_empty_value :
  ({["vin" := ""]} : gmap string string) !! "vin" = Some ""
  ∧ @Carsxe.buildURL example_range example_c "specs?vin=" {["vin" := ""]}
    = Ok "https://api.carsxe.com/specs?key=KEY&source=go&vin="
  ∧ query_values
      (@Carsxe.buildURL_URL example_range example_c "specs?vin="
         {["vin" := ""]}) "vin"
    = Ok (Some [""])
  ∧ @CarsxePanic.buildURL example_range example_lib example_c "specs?vin="
      {["vin" := ""]}
    = Return "https://api.carsxe.com/specs?key=KEY&source=go&vin=".
Proof. repeat split; vm_compute; reflexivity. Qed.

Lemma buildURL_key_source_first_witness :
  Query (api_url "/specs" "key=KEY&source=go&vin=WBAFR7C57CC811956") !! "key"
  = Some ("KEY" :: caller_values {["vin" := "WBAFR7C57CC811956"]} "key")
  ∧ Query (api_url "/specs" "key=KEY&source=go&vin=WBAFR7C57CC811956")
      !! "source"
    = Some ("go" :: caller_values {["vin" := "WBAFR7C57CC811956"]} "source")
  ∧ Get (Query (api_url "/specs" "key=KEY&source=go&vin=WBAFR7C57CC811956"))
      "key" = "KEY"
  ∧ Get (Query (api_url "/specs" "key=KEY&source=go&vin=WBAFR7C57CC811956"))
      "source" = "go"
  ∧ ∃ u, String_ (api_url "/specs" "key=KEY&source=go&vin=WBAFR7C57CC811956")
         = String_hier u +:+ "?"
           +:+ "key=KEY&source=go&vin=WBAFR7C57CC811956" +:+ fragment_text u.
Proof.
  apply (@buildURL_key_source_first example_range example_lib
           example_c "specs" {["vin" := "WBAFR7C57CC811956"]}).
  left. vm_compute. reflexivity.
Defined.

(** C2 fails as stated: a caller-supplied [key] is neither overwritten nor
    rejected; the built URL carries it as a second [key] entry. *)
Lemma buildURL_keeps_caller_key :
  @Carsxe.buildURL example_range example_c "specs" {["key" := "evil"]}
  = Ok "https://api.carsxe.com/specs?key=KEY&key=evil&source=go"
  ∧ query_values
      (@Carsxe.buildURL_URL example_range example_c "specs"
         {["key" := "evil"]}) "key"
    = Ok (Some ["KEY"; "evil"])
  ∧ @CarsxePanic.buildURL example_range example_lib example_c "specs"
      {["key" := "evil"]}
    = Return "https://api.carsxe.com/specs?key=KEY&key=evil&source=go".
Proof. repeat split; vm_compute; reflexivity. Qed.

End buildURL_examples.

(** ** Claims about the transport *)

Section doRequest_claims.
Import GoStrings NetURL.
Context `{MapRange, GoLib}.

Lemma contains_middle pre t post : contains (pre +:+ t +:+ post) t.
Proof. by exists pre, post. Qed.

Lemma contains_app_l s s' t : contains s t → contains (s' +:+ s) t.
Proof.
  intros (pre & post & ->). exists (s' +:+ pre), post.
  by rewrite app_assoc'.
Qed.

Lemma contains_suffix s t : contains (s +:+ t) t.
Proof. exists s, "". by rewrite app_empty_r. Qed.

Lemma non_2xx_test (status : Z) :
  (status < 200)%Z ∨ (status >= 300)%Z ↔
  (status <? 200)%Z || (status >=? 300)%Z = true.
Proof. rewrite orb_true_iff, Z.ltb_lt, Z.geb_le. lia. Qed.

Lemma is_2xx_test (status : Z) :
  (200 ≤ status < 300)%Z →
  (status <? 200)%Z || (status >=? 300)%Z = false.
Proof.
  intros ?.
  destruct ((status <? 200)%Z || (status >=? 300)%Z) eqn:E; [|done].
  apply non_2xx_test in E. lia.
Qed.

Lemma length_zero_test s : (String.length s =? 0)%nat = String.eqb s "".
Proof. by destruct s. Qed.

(** What [doRequest] does with a response that was received and read,
    in [main.go] ... *)
Lemma doRequest_response c req resp body :
  NetHTTP.Do (httpClient c) req = Ok resp →
  NetHTTP.ReadAll_Body resp = Ok body →
  Carsxe.doRequest c req
  = ([HTTPDo req],
     if (NetHTTP.StatusCode resp <? 200)%Z
        || (NetHTTP.StatusCode resp >=? 300)%Z
     then Err (errorString
                 ("carsxe: non-2xx response ("
                  +:+ Itoa (NetHTTP.StatusCode resp) +:+ "): " +:+ body))
     else if String.eqb body "" then Ok ∅
     else match json_Unmarshal body with
          | Err err =>
              Err (wrapError
                     ("carsxe: decode error: " +:+ Error err
                      +:+ " (body=" +:+ body +:+ ")") err)
          | Ok out => Ok out
          end).
Proof.
  intros HDo Hbody. unfold Carsxe.doRequest.
  rewrite HDo. simpl. rewrite Hbody. simpl.
  destruct ((NetHTTP.StatusCode resp <? 200)%Z
            || (NetHTTP.StatusCode resp >=? 300)%Z); [done|].
  rewrite length_zero_test. destruct (String.eqb body ""); [done|].
  by destruct (json_Unmarshal body).
Qed.

(** ... and in the implementation that panics, which does not look at the
    status code. *)
Lemma doRequest_panic_response c req resp body :
  NetHTTP.Do (httpClient c) req = Ok resp →
  NetHTTP.ReadAll_Body resp = Ok body →
  CarsxePanic.doRequest c req
  = ([HTTPDo req],
     if String.eqb body "" then Return ∅
     else match json_Unmarshal body with
          | Err err =>
              Panic ("Failed to decode JSON: " +:+ Error err
                     +:+ " (body=" +:+ body +:+ ")")
          | Ok out => Return out
          end).
Proof.
  intros HDo Hbody. unfold CarsxePanic.doRequest.
  rewrite HDo. simpl. rewrite Hbody.
  rewrite length_zero_test. destruct (String.eqb body ""); [done|].
  by destruct (json_Unmarshal body).
Qed.

(** C4, as amended: for a response with a status code outside 200..299,
    [doRequest] of [main.go] returns no mapping but an error whose text
    gives the status code in decimal and the response body.  The
    implementation that panics does not examine the status code: it
    returns an empty mapping when the body is empty, the decoded mapping
    when the body decodes, and panics with a text that includes the body
    when it does not. *)
Theorem doRequest_non_2xx (c : Client) (req : NetHTTP.Request)
    (resp : NetHTTP.Response) (body : string) :
  NetHTTP.Do (httpClient c) req = Ok resp →
  NetHTTP.ReadAll_Body resp = Ok body →
  (NetHTTP.StatusCode resp < 200)%Z ∨ (NetHTTP.StatusCode resp >= 300)%Z →
  (∃ e, Carsxe.doRequest c req = ([HTTPDo req], Err e)
      ∧ Error e = "carsxe: non-2xx response ("
                  +:+ Itoa (NetHTTP.StatusCode resp) +:+ "): " +:+ body
      ∧ contains (Error e) (Itoa (NetHTTP.StatusCode resp))
      ∧ contains (Error e) body)
  ∧ CarsxePanic.doRequest c req
    = ([HTTPDo req],
       if String.eqb body "" then Return ∅
       else match json_Unmarshal body with
            | Err err =>
                Panic ("Failed to decode JSON: " +:+ Error err
                       +:+ " (body=" +:+ body +:+ ")")
            | Ok out => Return out
            end).
Proof.
  intros HDo Hbody Hstatus%non_2xx_test. split.
  - eexists. rewrite (doRequest_response _ _ _ _ HDo Hbody), Hstatus.
    split; [done|]. split; [done|]. split; simpl.
    + apply contains_middle.
    + apply contains_app_l, contains_app_l, contains_suffix.
  - by apply (doRequest_panic_response c req resp).
Qed.

(** C5: a response with a status code in 200..299 and an empty body makes
    [doRequest] return an empty mapping and no error, in both
    implementations. *)
Theorem doRequest_empty_body (c : Client) (req : NetHTTP.Request)
    (resp : NetHTTP.Response) :
  NetHTTP.Do (httpClient c) req = Ok resp →
  (200 ≤ NetHTTP.StatusCode resp < 300)%Z →
  NetHTTP.ReadAll_Body resp = Ok "" →
  Carsxe.doRequest c req = ([HTTPDo req], Ok ∅)
  ∧ CarsxePanic.doRequest c req = ([HTTPDo req], Return ∅).
Proof.
  intros HDo Hstatus%is_2xx_test Hbody. split.
  - by rewrite (doRequest_response _ _ _ _ HDo Hbody), Hstatus.
  - by rewrite (doRequest_panic_response _ _ _ _ HDo Hbody).
Qed.

(** C6: a response with a status code in 200..299 whose body is not
    empty and is rejected by the JSON decoder for a string-keyed mapping
    makes [doRequest] fail, with an error in [main.go] and a panic in the
    other implementation, and the text of either includes the raw body. *)
Theorem doRequest_malformed_body (c : Client) (req : NetHTTP.Request)
    (resp : NetHTTP.Response) (body : string) (err : error) :
  NetHTTP.Do (httpClient c) req = Ok resp →
  (200 ≤ NetHTTP.StatusCode resp < 300)%Z →
  NetHTTP.ReadAll_Body resp = Ok body →
  body ≠ "" →
  json_Unmarshal body = Err err →
  (∃ e, Carsxe.doRequest c req = ([HTTPDo req], Err e)
      ∧ contains (Error e) body)
  ∧ (∃ v, CarsxePanic.doRequest c req = ([HTTPDo req], Panic v)
        ∧ contains v body).
Proof.
  intros HDo Hstatus%is_2xx_test Hbody Hne Herr.
  assert (String.eqb body "" = false) as Heqb.
  { by destruct (String.eqb_spec body ""). }
  split.
  - eexists.
    rewrite (doRequest_response _ _ _ _ HDo Hbody), Hstatus, Heqb, Herr.
    split; [done|]. simpl.
    apply contains_app_l, contains_app_l. apply (contains_middle " (body=").
  - eexists.
    rewrite (doRequest_panic_response _ _ _ _ HDo Hbody), Heqb, Herr.
    split; [done|].
    apply contains_app_l, contains_app_l. apply (contains_middle " (body=").
Qed.

End doRequest_claims.

Section doRequest_examples.

Lemma doRequest_non_2xx_witness :
  (∃ e, @Carsxe.doRequest example_lib
          (example_client (example_response 404 "{}")) example_request
        = ([HTTPDo example_request], Err e)
      ∧ @Error example_lib e = "carsxe: non-2xx response (404): {}"
      ∧ contains (@Error example_lib e) "404"
      ∧ contains (@Error example_lib e) "{}")
  ∧ @CarsxePanic.doRequest example_lib
      (example_client (example_response 404 "{}")) example_request
    = ([HTTPDo example_request], Return ∅).
Proof.
  apply (@doRequest_non_2xx example_lib
           (example_client (example_response 404 "{}")) example_request
           (example_response 404 "{}") "{}").
  - reflexivity.
  - reflexivity.
  - right. vm_compute. discriminate.
Defined.

(** C4 fails as stated for the implementation that panics: a response
    with status 500 and an empty body, or status 404 and a body that
    decodes, makes it return a mapping. *)
Lemma doRequest_panic_returns_on_non_2xx :
  @CarsxePanic.doRequest example_lib
    (example_client (example_response 500 "")) example_request
  = ([HTTPDo example_request], Return ∅)
  ∧ @CarsxePanic.doRequest example_lib
      (example_client (example_response 404 "{}")) example_request
    = ([HTTPDo example_request], Return ∅).
Proof. split; vm_compute; reflexivity. Qed.

Lemma doRequest_empty_body_witness :
  @Carsxe.doRequest example_lib
    (example_client (example_response 204 "")) example_request
  = ([HTTPDo example_request], Ok ∅)
  ∧ @CarsxePanic.doRequest example_lib
      (example_client (example_response 204 "")) example_request
    = ([HTTPDo example_request], Return ∅).
Proof.
  apply (@doRequest_empty_body example_lib
           (example_client (example_response 204 "")) example_request
           (example_response 204 "")).
  - reflexivity.
  - vm_compute. split; [discriminate|reflexivity].
  - reflexivity.
Defined.

Lemma doRequest_malformed_body_witness :
  (∃ e, @Carsxe.doRequest example_lib
          (example_client (example_response 200 "<html>upstream</html>"))
          example_request
        = ([HTTPDo example_request], Err e)
      ∧ contains (@Error example_lib e) "<html>upstream</html>")
  ∧ (∃ v, @CarsxePanic.doRequest example_lib
            (example_client (example_response 200 "<html>upstream</html>"))
            example_request
          = ([HTTPDo example_request], Panic v)
        ∧ contains v "<html>upstream</html>").
Proof.
  apply (@doRequest_malformed_body example_lib
           (example_client (example_response 200 "<html>upstream</html>"))
           example_request
           (example_response 200 "<html>upstream</html>")
           "<html>upstream</html>"
           (errorString "invalid character in JSON input")).
  - reflexivity.
  - vm_compute. split; [discriminate|reflexivity].
  - reflexivity.
  - discriminate.
  - reflexivity.
Defined.

End doRequest_examples.

(** ** Claims about the endpoint methods *)

Section method_facts.
Import GoStrings NetURL.
Context `{MapRange, GoLib}.

Lemma doRequest_events c req : (Carsxe.doRequest c req).1 = [HTTPDo req].
Proof.
  unfold Carsxe.doRequest.
  destruct (NetHTTP.Do (httpClient c) req) as [resp|e]; simpl; [|done].
  destruct (NetHTTP.ReadAll_Body resp) as [body|e]; simpl; [|done].
  destruct (_ || _); [done|]. destruct (_ =? _)%nat; [done|].
  by destruct (json_Unmarshal body).
Qed.

Lemma doRequest_panic_events c req :
  (CarsxePanic.doRequest c req).1 = [HTTPDo req].
Proof.
  unfold CarsxePanic.doRequest.
  destruct (NetHTTP.Do (httpClient c) req) as [resp|e]; simpl; [|done].
  destruct (NetHTTP.ReadAll_Body resp) as [body|e]; simpl; [|done].
  destruct (_ =? _)%nat; [done|].
  by destruct (json_Unmarshal body).
Qed.

(** [Get], by cases on what the builder and the request constructor
    return. *)
Lemma Get_run ctx c endpoint params :
  Carsxe.Get ctx c endpoint params
  = match Carsxe.buildURL c endpoint params with
    | Err e => ([CallBuildURL endpoint params], Err e)
    | Ok urlStr =>
        match NetHTTP.NewRequestWithContext ctx "GET" urlStr None with
        | Err e => ([CallBuildURL endpoint params], Err e)
        | Ok req =>
            ([CallBuildURL endpoint params; HTTPDo req],
             (Carsxe.doRequest c req).2)
        end
    end.
Proof.
  unfold Carsxe.Get.
  destruct (Carsxe.buildURL c endpoint params) as [urlStr|e]; simpl; [|done].
  destruct (NetHTTP.NewRequestWithContext ctx "GET" urlStr None)
    as [req|e]; simpl; [|done].
  pose proof (doRequest_events c req) as Hev.
  destruct (Carsxe.doRequest c req) as [t r]. simpl in *. by subst t.
Qed.

Lemma Get_panic_run c endpoint params :
  CarsxePanic.Get c endpoint params
  = match CarsxePanic.buildURL c endpoint params with
    | Panic v => ([CallBuildURL endpoint params], Panic v)
    | Return urlStr =>
        match NetHTTP.NewRequest "GET" urlStr None with
        | Err e =>
            ([CallBuildURL endpoint params],
             Panic ("Failed to create request: " +:+ Error e))
        | Ok req =>
            ([CallBuildURL endpoint params; HTTPDo req],
             (CarsxePanic.doRequest c req).2)
        end
    end.
Proof.
  unfold CarsxePanic.Get.
  destruct (CarsxePanic.buildURL c endpoint params) as [urlStr|e];
    simpl; [|done].
  destruct (NetHTTP.NewRequest "GET" urlStr None) as [req|e]; simpl; [|done].
  pose proof (doRequest_panic_events c req) as Hev.
  destruct (CarsxePanic.doRequest c req) as [t r]. simpl in *. by subst t.
Qed.

Lemma buildURL_Ok_builds c endpoint params u' :
  builds c endpoint params u' →
  Carsxe.buildURL c endpoint params = Ok (String_ u')
  ∧ CarsxePanic.buildURL c endpoint params = Return (String_ u').
Proof.
  intros Hb%builds_Ok. split.
  - unfold Carsxe.buildURL. by rewrite Hb.
  - unfold CarsxePanic.buildURL.
    apply buildURL_URL_Return in Hb. by rewrite Hb.
Qed.

(** A request that [Get] sends is the GET request for the built URL. *)
Lemma Get_request ctx c endpoint params u' req :
  builds c endpoint params u' →
  HTTPDo req ∈ (Carsxe.Get ctx c endpoint params).1 →
  NetHTTP.NewRequestWithContext ctx "GET" (String_ u') None = Ok req.
Proof.
  intros [Hb _]%buildURL_Ok_builds. rewrite Get_run, Hb.
  destruct (NetHTTP.NewRequestWithContext _ _ _ _) as [req'|e]; simpl.
  - rewrite !elem_of_cons, elem_of_nil. intros [|[[= ->]|[]]]; done.
  - rewrite !elem_of_cons, elem_of_nil. intros [|[]]; done.
Qed.

Lemma Get_panic_request c endpoint params u' req :
  builds c endpoint params u' →
  HTTPDo req ∈ (CarsxePanic.Get c endpoint params).1 →
  NetHTTP.NewRequest "GET" (String_ u') None = Ok req.
Proof.
  intros [_ Hb]%buildURL_Ok_builds. rewrite Get_panic_run, Hb.
  destruct (NetHTTP.NewRequest _ _ _) as [req'|e]; simpl.
  - rewrite !elem_of_cons, elem_of_nil. intros [|[[= ->]|[]]]; done.
  - rewrite !elem_of_cons, elem_of_nil. intros [|[]]; done.
Qed.

(** C8, as amended: [PlateDecoder] applies no default.  For parameters in
    which [country] is absent or empty, the URL built for the request has
    under the name [country] exactly the values of the query string
    embedded in the base URL, none when the base URL has no such entry;
    every request [PlateDecoder] sends is the GET request for that URL. *)
Theorem PlateDecoder_adds_no_country (ctx : Context) (c : Client)
    (params : gmap string string) (u' : URL) :
  builds c "v2/platedecoder" params u' →
  params !! "country" = None ∨ params !! "country" = Some "" →
  (∃ u, Parse (baseURL c +:+ "/v2/platedecoder") = Ok u
      ∧ Query u' !! "country" = Query u !! "country")
  ∧ (∀ req, HTTPDo req ∈ (Carsxe.PlateDecoder ctx c params).1 →
            NetHTTP.NewRequestWithContext ctx "GET" (String_ u') None = Ok req)
  ∧ (∀ req, HTTPDo req ∈ (CarsxePanic.PlateDecoder c params).1 →
            NetHTTP.NewRequest "GET" (String_ u') None = Ok req).
Proof.
  intros Hb Hcountry. split; [|split].
  - pose proof Hb as Hb'%builds_Ok.
    destruct (built_query_lookup _ _ _ _ Hb') as (u & Hu & Hq).
    exists u. split; [done|].
    rewrite Hq, client_query_other by done.
    by destruct Hcountry as [-> | ->].
  - intros req. by apply Get_request.
  - intros req. by apply Get_panic_request.
Qed.

End method_facts.

Section plate_example.
Import GoStrings NetURL.
Context `{MapRange, GoLib}.







End plate_example.

(** ** Base URLs for which the example holds *)

Section plain_base.
Import GoStrings NetURL.

Lemma plain_host_cons c h :
  plain_host (String c h) ↔ host_byte c = true ∧ plain_host h.
Proof. unfold plain_host. simpl. by rewrite andb_true_iff. Qed.

Lemma host_byte_facts c :
  host_byte c = true →
  Contains "#?/@:[%" c = false
  ∧ (negb (byte_le " " c) || eqb c "127") = false
  ∧ shouldEscape c encodeHost = false
  ∧ byte_le c "127" = true
  ∧ eqb c "+" = false.
Proof.
  destruct c as [[] [] [] [] [] [] [] []]; intros Hc; vm_compute in Hc;
    try discriminate Hc; vm_compute; done.
Qed.

Lemma plain_host_Contains h x :
  Contains "#?/@:[%" x = true → plain_host h → Contains h x = false.
Proof.
  intros Hx. induction h as [|c h IH]; [done|].
  intros [Hc Hh]%plain_host_cons. simpl. rewrite (IH Hh), orb_false_r.
  destruct (host_byte_facts c Hc) as (Hno & _).
  unfold eqb. destruct (Ascii.eqb_spec c x) as [->|]; [|done]. congruence.
Qed.

Lemma plain_host_unescape h : plain_host h → unescape h encodeHost = Ok h.
Proof.
  induction h as [|c h IH]; [done|].
  intros [Hc Hh]%plain_host_cons.
  destruct (host_byte_facts c Hc) as (Hno & _ & Hesc & Hle & Hplus).
  assert (c ≠ "%"%char) as Hpct.
  { intros ->. done. }
  cbn [unescape].
  destruct c as [[] [] [] [] [] [] [] []]; try done;
    cbn [is_host_mode andb]; rewrite Hle, Hesc, (IH Hh); simpl; done.
Qed.

Lemma plain_host_escape h : plain_host h → escape h encodeHost = h.
Proof.
  induction h as [|c h IH]; [done|].
  intros [Hc Hh]%plain_host_cons.
  destruct (host_byte_facts c Hc) as (_ & _ & Hesc & _).
  cbn [escape]. unfold escape_byte. by rewrite Hesc, (IH Hh).
Qed.

Lemma list_ascii_of_string_app s t :
  list_ascii_of_string (s +:+ t)
  = list_ascii_of_string s ++ list_ascii_of_string t.
Proof. induction s as [|c s IH]; [done|]. simpl. by rewrite IH. Qed.

Lemma stringContainsCTLByte_app s t :
  stringContainsCTLByte (s +:+ t)
  = stringContainsCTLByte s || stringContainsCTLByte t.
Proof.
  unfold stringContainsCTLByte.
  by rewrite list_ascii_of_string_app, existsb_app.
Qed.

Lemma plain_host_no_CTL h : plain_host h → stringContainsCTLByte h = false.
Proof.
  unfold stringContainsCTLByte.
  induction h as [|c h IH]; [done|].
  intros [Hc Hh]%plain_host_cons. simpl. rewrite (IH Hh).
  destruct (host_byte_facts c Hc) as (_ & -> & _). done.
Qed.

Lemma HasSuffix_app s c t x :
  HasSuffix (s +:+ String c t) x = HasSuffix (String c t) x.
Proof.
  induction s as [|a s IH]; [done|].
  rewrite app_cons. cbn [HasSuffix].
  destruct (s +:+ String c t) eqn:E; [|done].
  by destruct s.
Qed.

Lemma substring_all s n :
  (String.length s ≤ n)%nat → String.substring 0 n s = s.
Proof.
  revert n. induction s as [|c s IH]; intros [|n] Hn; simpl in *;
    try done; try lia.
  rewrite IH; [done|lia].
Qed.

Lemma CutLast_absent s x : Contains s x = false → CutLast s x = None.
Proof.
  induction s as [|c s IH]; [done|]. simpl.
  intros [Hc Hs]%orb_false_iff. by rewrite (IH Hs), Hc.
Qed.

Lemma plain_host_HasPrefix h : plain_host h → HasPrefix h "[" = false.
Proof.
  destruct h as [|c h]; [done|]. intros [Hc _]%plain_host_cons.
  unfold HasPrefix. cbn [String.prefix].
  destruct (Ascii.ascii_dec "[" c) as [<-|]; [by vm_compute in Hc|done].
Qed.

Lemma plain_host_parseAuthority h :
  plain_host h → parseAuthority h = Ok (None, h).
Proof.
  intros Hh. unfold parseAuthority, parseHost.
  rewrite (CutLast_absent h "@") by by apply plain_host_Contains.
  rewrite plain_host_HasPrefix by done.
  rewrite (CutLast_absent h ":") by by apply plain_host_Contains.
  by rewrite plain_host_unescape.
Qed.




End plain_base.

Section method_examples.
Import GoStrings NetURL.


Lemma PlateDecoder_adds_no_country_witness :
  (∃ u, Parse "https://api.carsxe.com/v2/platedecoder" = Ok u
      ∧ Query (api_url "/v2/platedecoder"
                 "key=KEY&plate=7XER187&source=go&state=CA") !! "country"
        = Query u !! "country")
  ∧ (∀ req,
       HTTPDo req
       ∈ (@Carsxe.PlateDecoder example_range example_lib context_Background
            example_c {["plate" := "7XER187"; "state" := "CA"]}).1 →
       NetHTTP.NewRequestWithContext context_Background "GET"
         (String_ (api_url "/v2/platedecoder"
                     "key=KEY&plate=7XER187&source=go&state=CA")) None
       = Ok req)
  ∧ (∀ req,
       HTTPDo req
       ∈ (@CarsxePanic.PlateDecoder example_range example_lib example_c
            {["plate" := "7XER187"; "state" := "CA"]}).1 →
       NetHTTP.NewRequest "GET"
         (String_ (api_url "/v2/platedecoder"
                     "key=KEY&plate=7XER187&source=go&state=CA")) None
       = Ok req).
Proof.
  apply (@PlateDecoder_adds_no_country example_range example_lib
           context_Background example_c
           {["plate" := "7XER187"; "state" := "CA"]}).
  - left. vm_compute. reflexivity.
  - left. vm_compute. reflexivity.
Defined.

(** C8 fails as stated: without a [country] parameter the request that
    [PlateDecoder] sends carries none, in both implementations. *)
Lemma PlateDecoder_sends_no_default_country :
  request_urls
    (@Carsxe.PlateDecoder example_range example_lib context_Background
       example_c {["plate" := "7XER187"]}).1
  = ["https://api.carsxe.com/v2/platedecoder?key=KEY&plate=7XER187&source=go"]
  ∧ request_urls
      (@CarsxePanic.PlateDecoder example_range example_lib
         example_c {["plate" := "7XER187"]}).1
    = ["https://api.carsxe.com/v2/platedecoder?key=KEY&plate=7XER187&source=go"]
  ∧ query_values
      (@Carsxe.buildURL_URL example_range example_c "v2/platedecoder"
         {["plate" := "7XER187"]}) "country"
    = Ok None
  ∧ query_values
      (@Carsxe.buildURL_URL example_range example_c "v2/platedecoder"
         {["plate" := "7XER187"; "country" := ""]}) "country"
    = Ok None.
Proof. repeat split; vm_compute; reflexivity. Qed.

End method_examples.

(** ** White space *)

Section trim_facts.
Import GoStrings.

Lemma rev_app_spec s1 s2 : String.rev_app s1 s2 = String.rev s1 +:+ s2.
Proof.
  revert s2. induction s1 as [|a s1 IH]; intros s2; [done|].
  unfold String.rev. simpl. rewrite (IH (String a s2)), (IH (String a "")).
  by rewrite app_assoc'.
Qed.

Lemma rev_cons a s : String.rev (String a s) = String.rev s +:+ String a "".
Proof. unfold String.rev at 1. simpl. apply rev_app_spec. Qed.

Lemma rev_app s t : String.rev (s +:+ t) = String.rev t +:+ String.rev s.
Proof.
  induction s as [|a s IH].
  - by rewrite app_empty_l, app_empty_r.
  - by rewrite app_cons, !rev_cons, IH, app_assoc'.
Qed.

Lemma rev_involutive s : String.rev (String.rev s) = s.
Proof.
  induction s as [|a s IH]; [done|]. by rewrite rev_cons, rev_app, IH.
Qed.

Lemma length_rev s : String.length (String.rev s) = String.length s.
Proof.
  induction s as [|a s IH]; [done|].
  rewrite rev_cons, length_app, IH. simpl. lia.
Qed.

Lemma rev_eq_empty s : String.rev s = "" → s = "".
Proof. intros Hs. by rewrite <- (rev_involutive s), Hs. Qed.

Lemma stripPrefix_Some w s s' : stripPrefix w s = Some s' → s = w +:+ s'.
Proof.
  revert s. induction w as [|a w IH]; intros s; simpl.
  - by intros [= ->].
  - destruct s as [|b s]; [done|]. unfold eqb.
    destruct (Ascii.eqb_spec a b) as [->|]; [|done].
    intros ->%IH. done.
Qed.

Lemma stripSpace_Some ws s s' :
  stripSpace ws s = Some s' → ∃ w, w ∈ ws ∧ s = w +:+ s'.
Proof.
  induction ws as [|w ws IH]; simpl; [done|].
  destruct (stripPrefix w s) as [t|] eqn:Hw.
  - intros [= ->]. exists w. split; [by left|]. by apply stripPrefix_Some.
  - intros (w' & ? & ?)%IH. exists w'. split; [by right|done].
Qed.

Lemma star_snoc ws s w : star ws s → w ∈ ws → star ws (s +:+ w).
Proof.
  intros Hs Hw. induction Hs as [|w' s Hw' Hs IH].
  - rewrite app_empty_l, <- (app_empty_r w). by constructor; [|constructor].
  - rewrite app_assoc'. by constructor.
Qed.

Lemma star_rev ws s : star (String.rev <$> ws) s → star ws (String.rev s).
Proof.
  induction 1 as [|w s Hw Hs IH]; [constructor|].
  apply list_elem_of_fmap in Hw as (w' & -> & Hw').
  rewrite rev_app, rev_involutive. by apply star_snoc.
Qed.

Lemma trimLeftSpace_star ws fuel s :
  exact_strip ws → star ws s → (String.length s ≤ fuel)%nat →
  trimLeftSpace ws fuel s = "".
Proof.
  intros [Hnil Hstrip] Hs. revert fuel.
  induction Hs as [|w s Hw Hs IH]; intros fuel Hlen.
  - destruct fuel; [done|]. simpl. by rewrite Hnil.
  - destruct (Hstrip w s Hw) as [Hne Hws].
    rewrite length_app in Hlen.
    destruct w as [|a w]; [done|]. simpl in Hlen.
    destruct fuel as [|fuel]; [lia|].
    cbn [trimLeftSpace]. rewrite Hws. apply IH. lia.
Qed.

Lemma trimLeftSpace_empty ws fuel s :
  exact_strip ws → (String.length s ≤ fuel)%nat →
  trimLeftSpace ws fuel s = "" → star ws s.
Proof.
  intros [Hnil Hstrip]. revert s.
  induction fuel as [|fuel IH]; intros s Hlen; simpl.
  - intros ->. constructor.
  - destruct (stripSpace ws s) as [s'|] eqn:Hs'; [|intros ->; constructor].
    apply stripSpace_Some in Hs' as (w & Hw & ->).
    destruct (Hstrip w s' Hw) as [Hne _].
    rewrite length_app in Hlen. destruct w as [|a w]; [done|].
    simpl in Hlen. intros Hrest%IH; [|lia]. by constructor.
Qed.

Lemma trimLeftSpace_stops ws fuel s :
  exact_strip ws → (String.length s ≤ fuel)%nat →
  trimLeftSpace ws fuel s = "" ∨ stripSpace ws (trimLeftSpace ws fuel s) = None.
Proof.
  intros [Hnil Hstrip]. revert s.
  induction fuel as [|fuel IH]; intros s Hlen; simpl.
  - left. destruct s; [done|simpl in Hlen; lia].
  - destruct (stripSpace ws s) as [s'|] eqn:Hs'; [|by right].
    apply stripSpace_Some in Hs' as (w & Hw & ->).
    destruct (Hstrip w s' Hw) as [Hne _].
    rewrite length_app in Hlen. destruct w as [|a w]; [done|].
    simpl in Hlen. apply IH. lia.
Qed.

Lemma exact_strip_White_Space : exact_strip White_Space.
Proof.
  split; [done|]. intros w s Hw. vm_compute in Hw.
  repeat (apply elem_of_cons in Hw as [->|Hw]; [by split|]).
  by apply elem_of_nil in Hw.
Qed.

Lemma exact_strip_rev_White_Space : exact_strip (String.rev <$> White_Space).
Proof.
  split; [done|]. intros w s Hw. vm_compute in Hw.
  repeat (apply elem_of_cons in Hw as [->|Hw]; [by split|]).
  by apply elem_of_nil in Hw.
Qed.

(** [TrimSpace] leaves nothing exactly of the strings that are empty or
    white space only. *)
Lemma TrimSpace_empty_iff s : TrimSpace s = "" ↔ only_whitespace s.
Proof.
  unfold only_whitespace, TrimSpace, TrimRightSpace. split.
  - intros Hs%rev_eq_empty.
    apply trimLeftSpace_empty in Hs;
      [|apply exact_strip_rev_White_Space|by rewrite length_rev].
    apply star_rev in Hs. rewrite rev_involutive in Hs.
    assert (TrimLeftSpace s = "") as Hleft.
    { destruct (trimLeftSpace_stops White_Space (String.length s) s
                  exact_strip_White_Space) as [?|Hstop]; [done..|].
      fold (TrimLeftSpace s) in Hstop.
      destruct Hs as [|w r Hw Hr]; [done|].
      destruct (proj2 exact_strip_White_Space w r Hw) as [_ Hstrip].
      congruence. }
    by apply (trimLeftSpace_empty White_Space (String.length s));
      [apply exact_strip_White_Space|..].
  - intros Hs.
    assert (TrimLeftSpace s = "") as ->; [|done].
    by apply trimLeftSpace_star; [apply exact_strip_White_Space|..].
Qed.

End trim_facts.

(** ** Claims about the image endpoints *)

Section image_claims.
Import GoStrings NetURL.
Context `{MapRange, GoLib}.

(** C3: for an image URL that is empty or consists of white space only,
    [PlateImageRecognition] and [VinOCR] fail, with the error
    "image URL required" in [main.go] and a panic in the other
    implementation, before any call to the URL builder and before any
    request is sent. *)
Theorem image_url_required (ctx : Context) (c : Client) (imageURL : string) :
  only_whitespace imageURL →
  Carsxe.PlateImageRecognition ctx c imageURL
  = ([], Err (errorString "image URL required"))
  ∧ Carsxe.VinOCR ctx c imageURL
    = ([], Err (errorString "image URL required"))
  ∧ CarsxePanic.PlateImageRecognition c imageURL
    = ([], Panic "image URL required")
  ∧ CarsxePanic.VinOCR c imageURL = ([], Panic "image URL required").
Proof.
  intros Hs%TrimSpace_empty_iff.
  unfold Carsxe.PlateImageRecognition, Carsxe.VinOCR,
    CarsxePanic.PlateImageRecognition, CarsxePanic.VinOCR.
  by rewrite Hs.
Qed.

Lemma TrimSpace_test s :
  ¬ only_whitespace s → String.eqb (TrimSpace s) "" = false.
Proof.
  intros Hs. destruct (String.eqb_spec (TrimSpace s) "") as [He|]; [|done].
  by apply TrimSpace_empty_iff in He.
Qed.

Lemma json_Encode_image U : json_Encode {["image" := U]} = image_body U.
Proof.
  unfold json_Encode, image_body.
  assert (range ({["image" := U]} : gmap string string) = [("image", U)])
    as ->.
  { apply Permutation_singleton_r.
    by rewrite range_perm, map_to_list_singleton. }
  cbn [fmap list_fmap fst].
  change (merge_sort String.le ["image"]) with ["image"].
  cbn [fmap list_fmap String.concat]. rewrite lookup_singleton_eq.
  simpl. rewrite ?app_assoc'. reflexivity.
Qed.

Lemma buildURL_Return_Ok c endpoint params url :
  Carsxe.buildURL c endpoint params = Ok url →
  CarsxePanic.buildURL c endpoint params = Return url.
Proof.
  unfold Carsxe.buildURL, CarsxePanic.buildURL.
  destruct (Carsxe.buildURL_URL c endpoint params) as [u'|e] eqn:Hb; [|done].
  intros [= <-]. apply buildURL_URL_Return in Hb. by rewrite Hb.
Qed.

Lemma NewRequestWithContext_Ok ctx method url body u :
  Parse url = Ok u →
  ∃ req, NetHTTP.NewRequestWithContext ctx method url body = Ok req
       ∧ NetHTTP.Method req = method
       ∧ NetHTTP.Body req = body
       ∧ NetHTTP.Headers req = ∅.
Proof.
  intros Hu. unfold NetHTTP.NewRequestWithContext. rewrite Hu. simpl.
  eexists. by split.
Qed.

Lemma setHeader_json_post req0 body :
  NetHTTP.Method req0 = "POST" →
  NetHTTP.Body req0 = Some body →
  let req := NetHTTP.setHeader req0 "Content-Type" "application/json" in
  NetHTTP.Method req = "POST"
  ∧ NetHTTP.Body req = Some body
  ∧ NetHTTP.Headers req !! "Content-Type" = Some ["application/json"].
Proof.
  intros Hm Hb. simpl. split; [done|]. split; [done|].
  unfold NetHTTP.Header_Set. apply lookup_insert_eq.
Qed.

(** [postJSON] with a body, when the URL builds and parses. *)
Lemma postJSON_image_run ctx c endpoint U url u :
  Carsxe.buildURL c endpoint ∅ = Ok url →
  Parse url = Ok u →
  sends_image_post
    (Carsxe.postJSON ctx c endpoint (Some {["image" := U]})).1
    endpoint ctx url U.
Proof.
  intros Hb Hu.
  destruct (NewRequestWithContext_Ok ctx "POST" url (Some (image_body U)) u Hu)
    as (req0 & Hreq & Hm & Hbody & Hh).
  exists req0, (NetHTTP.setHeader req0 "Content-Type" "application/json").
  split; [done|]. split; [done|]. split; [|by apply setHeader_json_post].
  unfold Carsxe.postJSON. rewrite Hb, json_Encode_image. simpl.
  rewrite Hreq. simpl.
  pose proof (doRequest_events c
    (NetHTTP.setHeader req0 "Content-Type" "application/json")) as Hev.
  destruct (Carsxe.doRequest c _) as [t r]. simpl in *. by subst t.
Qed.

Lemma postJSON_panic_image_run c endpoint U url u :
  Carsxe.buildURL c endpoint ∅ = Ok url →
  Parse url = Ok u →
  sends_image_post
    (CarsxePanic.postJSON c endpoint (Some {["image" := U]})).1
    endpoint context_Background url U.
Proof.
  intros Hb%buildURL_Return_Ok Hu.
  destruct (NewRequestWithContext_Ok context_Background "POST" url
              (Some (image_body U)) u Hu)
    as (req0 & Hreq & Hm & Hbody & Hh).
  exists req0, (NetHTTP.setHeader req0 "Content-Type" "application/json").
  split; [done|]. split; [done|]. split; [|by apply setHeader_json_post].
  unfold CarsxePanic.postJSON. rewrite Hb, json_Encode_image. simpl.
  unfold NetHTTP.NewRequest. rewrite Hreq.
  pose proof (doRequest_panic_events c
    (NetHTTP.setHeader req0 "Content-Type" "application/json")) as Hev.
  destruct (CarsxePanic.doRequest c _) as [t r]. simpl in *. by subst t.
Qed.

Lemma buildURL_Panic_Err c endpoint params e :
  Carsxe.buildURL c endpoint params = Err e →
  ∃ v, CarsxePanic.buildURL c endpoint params = Panic v.
Proof.
  unfold Carsxe.buildURL, CarsxePanic.buildURL,
    Carsxe.buildURL_URL, CarsxePanic.buildURL_URL.
  destruct (Parse _) as [u|e']; simpl; [done|]. intros _. by eexists.
Qed.

Lemma postJSON_image_total ctx c endpoint U :
  image_run (Carsxe.postJSON ctx c endpoint (Some {["image" := U]})).1
    c endpoint ctx U.
Proof.
  unfold image_run.
  destruct (Carsxe.buildURL c endpoint ∅) as [url|e] eqn:Hb.
  - destruct (Parse url) as [u|e] eqn:Hu.
    + by apply (postJSON_image_run ctx c endpoint U url u).
    + unfold Carsxe.postJSON, NetHTTP.NewRequestWithContext.
      rewrite Hb. simpl. by rewrite Hu.
  - unfold Carsxe.postJSON. by rewrite Hb.
Qed.

Lemma postJSON_panic_image_total c endpoint U :
  image_run (CarsxePanic.postJSON c endpoint (Some {["image" := U]})).1
    c endpoint context_Background U.
Proof.
  unfold image_run.
  destruct (Carsxe.buildURL c endpoint ∅) as [url|e] eqn:Hb.
  - destruct (Parse url) as [u|e] eqn:Hu.
    + by apply (postJSON_panic_image_run c endpoint U url u).
    + apply buildURL_Return_Ok in Hb.
      unfold CarsxePanic.postJSON, NetHTTP.NewRequest,
        NetHTTP.NewRequestWithContext.
      rewrite Hb. simpl. by rewrite Hu.
  - apply buildURL_Panic_Err in Hb as [v Hb].
    unfold CarsxePanic.postJSON. by rewrite Hb.
Qed.

(** C9: for an image URL [U] that is neither empty nor white space only,
    [PlateImageRecognition] and [VinOCR] send, in both implementations,
    exactly one request: a POST request whose body is the JSON object
    with the single field [image] set to [U] and whose Content-Type
    header is application/json.  (Only when the client's base URL makes
    the URL builder or the request constructor fail is nothing sent.) *)
Theorem image_request_is_json_post (ctx : Context) (c : Client) (U : string) :
  ¬ only_whitespace U →
  image_run (Carsxe.PlateImageRecognition ctx c U).1
    c "platerecognition" ctx U
  ∧ image_run (Carsxe.VinOCR ctx c U).1 c "v1/vinocr" ctx U
  ∧ image_run (CarsxePanic.PlateImageRecognition c U).1
      c "platerecognition" context_Background U
  ∧ image_run (CarsxePanic.VinOCR c U).1
      c "v1/vinocr" context_Background U.
Proof.
  intros HU%TrimSpace_test.
  unfold Carsxe.PlateImageRecognition, Carsxe.VinOCR,
    CarsxePanic.PlateImageRecognition, CarsxePanic.VinOCR.
  rewrite HU. split; [|split; [|split]].
  - apply postJSON_image_total.
  - apply postJSON_image_total.
  - apply postJSON_panic_image_total.
  - apply postJSON_panic_image_total.
Qed.

End image_claims.

Section image_examples.
Import GoStrings NetURL.

Lemma image_url_required_witness :
  @Carsxe.PlateImageRecognition example_range example_lib
    context_Background example_c example_blank
  = ([], Err (errorString "image URL required"))
  ∧ @Carsxe.VinOCR example_range example_lib
      context_Background example_c example_blank
    = ([], Err (errorString "image URL required"))
  ∧ @CarsxePanic.PlateImageRecognition example_range example_lib
      example_c example_blank
    = ([], Panic "image URL required")
  ∧ @CarsxePanic.VinOCR example_range example_lib example_c example_blank
    = ([], Panic "image URL required").
Proof.
  apply (@image_url_required example_range example_lib context_Background
           example_c example_blank).
  apply TrimSpace_empty_iff. vm_compute. reflexivity.
Defined.

Lemma image_request_is_json_post_witness :
  sends_image_post (H := example_lib)
    (@Carsxe.PlateImageRecognition example_range example_lib
       context_Background example_c example_image).1
    "platerecognition" context_Background
    "https://api.carsxe.com/platerecognition?key=KEY&source=go" example_image
  ∧ sends_image_post (H := example_lib)
      (@Carsxe.VinOCR example_range example_lib
         context_Background example_c example_image).1
      "v1/vinocr" context_Background
      "https://api.carsxe.com/v1/vinocr?key=KEY&source=go" example_image
  ∧ sends_image_post (H := example_lib)
      (@CarsxePanic.PlateImageRecognition example_range example_lib
         example_c example_image).1
      "platerecognition" context_Background
      "https://api.carsxe.com/platerecognition?key=KEY&source=go"
      example_image
  ∧ sends_image_post (H := example_lib)
      (@CarsxePanic.VinOCR example_range example_lib
         example_c example_image).1
      "v1/vinocr" context_Background
      "https://api.carsxe.com/v1/vinocr?key=KEY&source=go" example_image.
Proof.
  apply (@image_request_is_json_post example_range example_lib
           context_Background example_c example_image).
  intros Hs%TrimSpace_empty_iff. vm_compute in Hs. discriminate Hs.
Defined.

End image_examples.

(** * Further properties of the package *)

(** ** Slashes between base URL and endpoint *)

Section slash_facts.
Import GoStrings NetURL.

Lemma TrimLeft_slashes n s : TrimLeft (slashes n +:+ s) "/" = TrimLeft s "/".
Proof. induction n as [|n IH]; [done|]. simpl. apply IH. Qed.

Lemma slashes_snoc n : slashes n +:+ "/" = String "/" (slashes n).
Proof.
  induction n as [|n IH]; [done|].
  cbn [slashes]. by rewrite app_cons, IH.
Qed.

Lemma rev_slashes n : String.rev (slashes n) = slashes n.
Proof.
  induction n as [|n IH]; [done|].
  cbn [slashes]. by rewrite rev_cons, IH, slashes_snoc.
Qed.

Lemma TrimRight_slashes s n : TrimRight (s +:+ slashes n) "/" = TrimRight s "/".
Proof.
  unfold TrimRight. by rewrite rev_app, rev_slashes, TrimLeft_slashes.
Qed.

Lemma TrimLeft_head s cutset :
  match TrimLeft s cutset with
  | EmptyString => True
  | String c _ => Contains cutset c = false
  end.
Proof.
  induction s as [|c s IH]; [done|]. simpl.
  destruct (Contains cutset c) eqn:Hc; [done|]. by rewrite Hc.
Qed.

Lemma TrimLeft_suffix s cutset :
  ∃ pre, s = pre +:+ TrimLeft s cutset
       ∧ forallb (Contains cutset) (list_ascii_of_string pre) = true.
Proof.
  induction s as [|c s (pre & Hpre & Hall)]; [by exists ""|]. simpl.
  destruct (Contains cutset c) eqn:Hc.
  - exists (String c pre). rewrite app_cons, <- Hpre. simpl.
    by rewrite Hc, Hall.
  - by exists "".
Qed.

Lemma HasSuffix_rev_cons c s x : HasSuffix (String.rev (String c s)) x = eqb c x.
Proof. rewrite rev_cons. by rewrite HasSuffix_app. Qed.

Lemma TrimRight_no_suffix s : HasSuffix (TrimRight s "/") "/" = false.
Proof.
  unfold TrimRight. pose proof (TrimLeft_head (String.rev s) "/") as Hhead.
  destruct (TrimLeft (String.rev s) "/") as [|c t]; [done|].
  rewrite HasSuffix_rev_cons.
  change (Contains "/" c) with (Ascii.eqb "/" c || false) in Hhead.
  rewrite orb_false_r in Hhead. unfold eqb. by rewrite Ascii.eqb_sym.
Qed.

Lemma TrimRight_prefix s :
  ∃ n, s = TrimRight s "/" +:+ slashes n.
Proof.
  unfold TrimRight.
  destruct (TrimLeft_suffix (String.rev s) "/") as (pre & Hpre & Hall).
  assert (∃ n, pre = slashes n) as [n ->].
  { clear Hpre. induction pre as [|c pre IH]; [by exists O|].
    cbn [forallb list_ascii_of_string] in Hall.
    apply andb_true_iff in Hall as [Hc Hall].
    destruct (IH Hall) as [n ->]. exists (S n).
    change (Contains "/" c) with (Ascii.eqb "/" c || false) in Hc.
    rewrite orb_false_r in Hc. by apply Ascii.eqb_eq in Hc as <-. }
  exists n. rewrite <- (rev_involutive s) at 1.
  rewrite Hpre at 1. by rewrite rev_app, rev_slashes.
Qed.

End slash_facts.

Section slash_properties.
Import GoStrings NetURL.
Context `{MapRange, GoLib}.

(** X1: slashes at the end of the base URL given to [WithBaseURL] and at
    the start of the endpoint do not matter: any number of them gives the
    same URL, or the same failure, in both implementations. *)
Theorem buildURL_ignores_joining_slashes (c : Client) (u endpoint : string)
    (n m : nat) (params : gmap string string) :
  Carsxe.buildURL (WithBaseURL (u +:+ slashes n) c)
    (slashes m +:+ endpoint) params
  = Carsxe.buildURL (WithBaseURL u c) endpoint params
  ∧ CarsxePanic.buildURL (WithBaseURL (u +:+ slashes n) c)
      (slashes m +:+ endpoint) params
    = CarsxePanic.buildURL (WithBaseURL u c) endpoint params.
Proof.
  unfold Carsxe.buildURL, CarsxePanic.buildURL,
    Carsxe.buildURL_URL, CarsxePanic.buildURL_URL, WithBaseURL.
  cbn [baseURL apiKey source].
  by rewrite TrimRight_slashes, TrimLeft_slashes.
Qed.

(** X2: the base URL that [WithBaseURL] stores is its argument without
    the slashes at its end: it does not end with a slash, and the argument
    is the stored text followed by slashes only. *)
Theorem WithBaseURL_strips_trailing_slashes (u : string) (c : Client) :
  HasSuffix (baseURL (WithBaseURL u c)) "/" = false
  ∧ ∃ n, u = baseURL (WithBaseURL u c) +:+ slashes n.
Proof.
  unfold WithBaseURL. cbn [baseURL].
  split; [apply TrimRight_no_suffix|apply TrimRight_prefix].
Qed.

End slash_properties.

(** ** Options *)

Section option_facts.
Import GoStrings.
Context `{GoLib}.

Lemma default_last_cons {A} (d x : A) (l : list A) :
  default x (last l) = default d (last (x :: l)).
Proof. rewrite last_cons. by destruct (last l). Qed.

Lemma foldl_options (c0 : Client) (os : list option_spec) :
  foldl (λ c o, o c) c0 (to_Option <$> os)
  = {| apiKey := apiKey c0;
       baseURL := default (baseURL c0)
                    (last ((λ u, TrimRight u "/") <$> given_bases os));
       source := default (source c0) (last (given_sources os));
       httpClient := default (httpClient c0) (last (given_clients os)) |}.
Proof.
  revert c0. induction os as [|o os IH]; intros c0; [by destruct c0|].
  rewrite fmap_cons. cbn [foldl]. rewrite IH.
  destruct o as [u|h|src];
    cbn [to_Option WithBaseURL WithHTTPClient WithSource
         apiKey baseURL source httpClient].
  - change (given_bases (SetBaseURL u :: os)) with (u :: given_bases os).
    by rewrite fmap_cons, <- (default_last_cons (baseURL c0)).
  - change (given_clients (SetHTTPClient h :: os))
      with (h :: given_clients os).
    by rewrite <- (default_last_cons (httpClient c0)).
  - change (given_sources (SetSource src :: os))
      with (src :: given_sources os).
    by rewrite <- (default_last_cons (source c0)).
Qed.

(** X3: [New] applies the options in order, each field on its own: the
    API key is the one given to [New] whatever the options are; the base
    URL, source tag and HTTP client are those of the last option of their
    kind (the base URL without the slashes at its end), and the defaults
    [https://api.carsxe.com], [go] and a client with a timeout of 15
    seconds where there is no such option. *)
Theorem New_options (key : string) (os : list option_spec) :
  New key (to_Option <$> os)
  = {| apiKey := key;
       baseURL := default "https://api.carsxe.com"
                    (last ((λ u, TrimRight u "/") <$> given_bases os));
       source := default "go" (last (given_sources os));
       httpClient :=
         default {| NetHTTP.Timeout := 15 * Second;
                    NetHTTP.Do := http_DefaultTransport |}
                 (last (given_clients os)) |}.
Proof. unfold New. by rewrite foldl_options. Qed.

End option_facts.

(** ** URLs for a base URL [https://host] *)

Section plain_url.
Import GoStrings NetURL.

Lemma plain_path_cons c p :
  plain_path (String c p) ↔ path_byte c = true ∧ plain_path p.
Proof. unfold plain_path. simpl. by rewrite andb_true_iff. Qed.

Lemma path_byte_facts c :
  path_byte c = true →
  Contains "#?%" c = false
  ∧ (negb (byte_le " " c) || eqb c "127") = false
  ∧ shouldEscape c encodePath = false
  ∧ eqb c "+" = false.
Proof.
  destruct c as [[] [] [] [] [] [] [] []]; intros Hc; vm_compute in Hc;
    try discriminate Hc; vm_compute; done.
Qed.

Lemma plain_path_Contains p x :
  Contains "#?%" x = true → plain_path p → Contains p x = false.
Proof.
  intros Hx. induction p as [|c p IH]; [done|].
  intros [Hc Hp]%plain_path_cons. simpl. rewrite (IH Hp), orb_false_r.
  destruct (path_byte_facts c Hc) as (Hno & _).
  unfold eqb. destruct (Ascii.eqb_spec c x) as [->|]; [|done]. congruence.
Qed.

Lemma plain_path_no_CTL p : plain_path p → stringContainsCTLByte p = false.
Proof.
  unfold stringContainsCTLByte.
  induction p as [|c p IH]; [done|].
  intros [Hc Hp]%plain_path_cons. simpl. rewrite (IH Hp).
  destruct (path_byte_facts c Hc) as (_ & -> & _). done.
Qed.

Lemma plain_path_unescape p : plain_path p → unescape p encodePath = Ok p.
Proof.
  induction p as [|c p IH]; [done|].
  intros [Hc Hp]%plain_path_cons.
  destruct (path_byte_facts c Hc) as (Hno & _ & _ & Hplus).
  cbn [unescape].
  destruct c as [[] [] [] [] [] [] [] []]; try done;
    cbn [is_host_mode andb]; rewrite (IH Hp); simpl; done.
Qed.

Lemma plain_path_escape p : plain_path p → escape p encodePath = p.
Proof.
  induction p as [|c p IH]; [done|].
  intros [Hc Hp]%plain_path_cons.
  destruct (path_byte_facts c Hc) as (_ & _ & Hesc & _).
  cbn [escape]. unfold escape_byte. by rewrite Hesc, (IH Hp).
Qed.

Lemma plain_path_TrimLeft e : plain_path e → plain_path (TrimLeft e "/").
Proof.
  induction e as [|c e IH]; [done|]. intros Hce. cbn [TrimLeft].
  destruct (Contains "/" c); [|done].
  apply plain_path_cons in Hce as [_ He]. by apply IH.
Qed.

Lemma HasSuffix_absent s x : Contains s x = false → HasSuffix s x = false.
Proof.
  induction s as [|c s IH]; [done|]. simpl.
  intros [Hc Hs]%orb_false_iff. destruct s; [done|]. by apply IH.
Qed.

Lemma prefix_empty s : String.prefix "" s = true.
Proof. by destruct s. Qed.

Lemma query_text_cons c q :
  query_text (String c q) ↔ query_byte c = true ∧ query_text q.
Proof. unfold query_text. simpl. by rewrite andb_true_iff. Qed.

Lemma query_byte_facts c :
  query_byte c = true →
  Contains "#?" c = false ∧ (negb (byte_le " " c) || eqb c "127") = false.
Proof.
  destruct c as [[] [] [] [] [] [] [] []]; intros Hc; vm_compute in Hc;
    try discriminate Hc; vm_compute; done.
Qed.

Lemma query_text_Contains q x :
  Contains "#?" x = true → query_text q → Contains q x = false.
Proof.
  intros Hx. induction q as [|c q IH]; [done|].
  intros [Hc Hq]%query_text_cons. simpl. rewrite (IH Hq), orb_false_r.
  destruct (query_byte_facts c Hc) as (Hno & _).
  unfold eqb. destruct (Ascii.eqb_spec c x) as [->|]; [|done]. congruence.
Qed.

Lemma query_text_no_CTL q : query_text q → stringContainsCTLByte q = false.
Proof.
  unfold stringContainsCTLByte.
  induction q as [|c q IH]; [done|].
  intros [Hc Hq]%query_text_cons. simpl. rewrite (IH Hq).
  destruct (query_byte_facts c Hc) as (_ & ->). done.
Qed.

Ltac explode_https rest :=
  change ("https://" +:+ rest)
    with (String "h" (String "t" (String "t" (String "p" (String "s"
           (String ":" (String "/" (String "/" rest)))))))).

(** [url.Parse] on [https://host/path], without a query ... *)
Lemma plain_Parse h p :
  plain_host h → plain_path p →
  Parse ("https://" +:+ h +:+ String "/" p)
  = Ok (https_url h (String "/" p) "").
Proof.
  intros Hh Hp. unfold Parse.
  assert (Contains (h +:+ String "/" p) "#" = false) as Hhash.
  { rewrite Contains_app, (plain_host_Contains h "#") by done.
    cbn [Contains]. by rewrite (plain_path_Contains p "#"). }
  assert (Contains (h +:+ String "/" p) "?" = false) as Hq.
  { rewrite Contains_app, (plain_host_Contains h "?") by done.
    cbn [Contains]. by rewrite (plain_path_Contains p "?"). }
  assert (stringContainsCTLByte (h +:+ String "/" p) = false) as Hctl.
  { rewrite stringContainsCTLByte_app, (plain_host_no_CTL h) by done.
    change (String "/" p) with ("/" +:+ p).
    by rewrite stringContainsCTLByte_app, (plain_path_no_CTL p). }
  rewrite Cut_absent by (rewrite Contains_app, Hhash; reflexivity).
  unfold parse.
  rewrite stringContainsCTLByte_app, Hctl.
  change (stringContainsCTLByte "https://" || false) with false.
  set (rest := h +:+ String "/" p) in *.
  explode_https rest.
  cbn [String.eqb Ascii.eqb Bool.eqb andb].
  match goal with
  | |- context [getScheme ?r] =>
      assert (getScheme r = Ok ("https", String "/" (String "/" rest)))
        as -> by reflexivity
  end.
  cbn [mbind result_bind].
  change (ToLower "https") with "https".
  assert (HasSuffix (String "/" (String "/" rest)) "?" = false) as ->.
  { apply HasSuffix_absent. cbn [Contains]. by rewrite Hq. }
  cbn [andb].
  assert (Cut (String "/" (String "/" rest)) "?"
          = (String "/" (String "/" rest), "", false)) as ->.
  { apply Cut_absent. cbn [Contains]. by rewrite Hq. }
  change (HasPrefix (String "/" (String "/" rest)) "/") with true.
  assert (HasPrefix (String "/" (String "/" rest)) "//" = true) as ->.
  { unfold HasPrefix. cbn [String.prefix]. apply prefix_empty. }
  change (nonempty "https") with true.
  cbn [negb andb orb].
  assert (String.substring 2 (String.length (String "/" (String "/" rest)))
            (String "/" (String "/" rest)) = rest) as ->.
  { cbn [String.substring String.length]. apply substring_all. lia. }
  subst rest.
  rewrite (Cut_first h p "/") by by apply plain_host_Contains.
  rewrite plain_host_parseAuthority by done.
  cbn [mbind result_bind].
  assert (plain_path (String "/" p)) as Hp' by by apply plain_path_cons.
  rewrite (plain_path_unescape _ Hp'). cbn [mbind result_bind wrapParse].
  by rewrite (plain_path_escape _ Hp'), String.eqb_refl.
Qed.

(** ... and with one. *)
Lemma plain_Parse_query h p c q :
  plain_host h → plain_path p → query_text (String c q) →
  Parse ("https://" +:+ (h +:+ String "/" p) +:+ String "?" (String c q))
  = Ok (https_url h (String "/" p) (String c q)).
Proof.
  intros Hh Hp Hcq. unfold Parse.
  assert (Contains (h +:+ String "/" p) "#" = false) as Hhash.
  { rewrite Contains_app, (plain_host_Contains h "#") by done.
    cbn [Contains]. by rewrite (plain_path_Contains p "#"). }
  assert (Contains (h +:+ String "/" p) "?" = false) as Hq.
  { rewrite Contains_app, (plain_host_Contains h "?") by done.
    cbn [Contains]. by rewrite (plain_path_Contains p "?"). }
  assert (stringContainsCTLByte (h +:+ String "/" p) = false) as Hctl.
  { rewrite stringContainsCTLByte_app, (plain_host_no_CTL h) by done.
    change (String "/" p) with ("/" +:+ p).
    by rewrite stringContainsCTLByte_app, (plain_path_no_CTL p). }
  pose proof (query_text_Contains _ "#" eq_refl Hcq) as Hqhash.
  pose proof (query_text_Contains _ "?" eq_refl Hcq) as Hqq.
  set (r1 := h +:+ String "/" p) in *.
  set (cq := String c q) in *.
  rewrite Cut_absent.
  2:{ rewrite !Contains_app, Hhash.
      change (String "?" cq) with ("?" +:+ cq).
      by rewrite Contains_app, Hqhash. }
  assert (stringContainsCTLByte ("https://" +:+ r1 +:+ String "?" cq)
          = false) as Hall.
  { change (String "?" cq) with ("?" +:+ cq).
    by rewrite !stringContainsCTLByte_app, Hctl, (query_text_no_CTL _ Hcq). }
  unfold parse. rewrite Hall.
  set (rest := r1 +:+ String "?" cq) in *.
  explode_https rest.
  cbn [String.eqb Ascii.eqb Bool.eqb andb].
  match goal with
  | |- context [getScheme ?r] =>
      assert (getScheme r = Ok ("https", String "/" (String "/" rest)))
        as -> by reflexivity
  end.
  cbn [mbind result_bind].
  change (ToLower "https") with "https".
  assert (HasSuffix (String "/" (String "/" rest)) "?" = false) as ->.
  { subst rest.
    rewrite (HasSuffix_app (String "/" (String "/" r1)) "?" cq).
    subst cq.
    change (HasSuffix (String "?" (String c q)) "?")
      with (HasSuffix (String c q) "?").
    by apply HasSuffix_absent. }
  cbn [andb].
  assert (Cut (String "/" (String "/" rest)) "?"
          = (String "/" (String "/" r1), cq, true)) as ->.
  { subst rest. apply (Cut_first (String "/" (String "/" r1))).
    cbn [Contains]. by rewrite Hq. }
  subst rest.
  change (HasPrefix (String "/" (String "/" r1)) "/") with true.
  assert (HasPrefix (String "/" (String "/" r1)) "//" = true) as ->.
  { unfold HasPrefix. cbn [String.prefix]. apply prefix_empty. }
  change (nonempty "https") with true.
  cbn [negb andb orb].
  assert (String.substring 2 (String.length (String "/" (String "/" r1)))
            (String "/" (String "/" r1)) = r1) as ->.
  { cbn [String.substring String.length]. apply substring_all. lia. }
  subst r1.
  rewrite (Cut_first h p "/") by by apply plain_host_Contains.
  rewrite plain_host_parseAuthority by done.
  cbn [mbind result_bind].
  assert (plain_path (String "/" p)) as Hp' by by apply plain_path_cons.
  rewrite (plain_path_unescape _ Hp'). cbn [mbind result_bind wrapParse].
  by rewrite (plain_path_escape _ Hp'), String.eqb_refl.
Qed.

Lemma plain_String_hier h p q :
  plain_host h → plain_path p →
  String_hier (https_url h (String "/" p) q) = "https://" +:+ h +:+ String "/" p.
Proof.
  intros Hh Hp. unfold String_hier, https_url.
  cbn [Scheme Opaque User Host Path OmitHost].
  change (nonempty "https") with true. change (nonempty "") with false.
  cbn [orb andb negb].
  assert (plain_path (String "/" p)) as Hp' by by apply plain_path_cons.
  unfold EscapedPath. cbn [RawPath Path].
  change (nonempty "") with false. cbn [andb].
  change (String.eqb (String "/" p) "*") with false. cbv iota.
  rewrite (plain_path_escape _ Hp'), (plain_host_escape h Hh).
  change (nonempty (String "/" p)) with true.
  change (HasPrefix (String "/" p) "/") with (String.prefix "" p).
  rewrite prefix_empty. cbn [negb andb].
  destruct h as [|a h]; reflexivity.
Qed.

Lemma query_text_app s t : query_text s → query_text t → query_text (s +:+ t).
Proof.
  unfold query_text. rewrite list_ascii_of_string_app, forallb_app.
  by intros -> ->.
Qed.

Lemma query_text_escape_byte c : query_text (escape_byte c encodeQueryComponent).
Proof. by destruct c as [[] [] [] [] [] [] [] []]. Qed.

Lemma query_text_QueryEscape s : query_text (QueryEscape s).
Proof.
  unfold QueryEscape. induction s as [|c s IH]; [done|].
  cbn [escape]. by apply query_text_app; [apply query_text_escape_byte|].
Qed.

Lemma query_text_pair_text p : query_text (pair_text p).
Proof.
  unfold pair_text.
  by repeat apply query_text_app; try apply query_text_QueryEscape.
Qed.

Lemma query_text_foldl_join buf l :
  query_text buf → Forall query_text l → query_text (foldl join_step buf l).
Proof.
  intros Hbuf Hl. revert buf Hbuf.
  induction Hl as [|p l Hp Hl IH]; intros buf Hbuf; [done|].
  cbn [foldl]. apply IH. unfold join_step.
  destruct (String.eqb buf "").
  - by apply query_text_app.
  - by repeat apply query_text_app.
Qed.

Lemma query_text_Encode `{MapRange} (v : Values) : query_text (Encode v).
Proof.
  rewrite Encode_pairs. apply query_text_foldl_join; [done|].
  apply Forall_fmap, Forall_true. intros p. apply query_text_pair_text.
Qed.

End plain_url.

(** ** Requests for a base URL [https://host] *)

Section plain_requests.
Import GoStrings NetURL.
Context `{MapRange, GoLib}.

Lemma request_query_range c params u :
  Query u = ∅ →
  add_params (client_query c u) (range params) = request_query c params.
Proof.
  intros Hu. unfold client_query, request_query. rewrite Hu.
  apply (add_params_any_range _ example_range).
Qed.

Lemma request_query_key c params :
  ∃ xs, request_query c params !! "key" = Some (apiKey c :: xs).
Proof.
  unfold request_query.
  change (map_to_list params) with (@range example_range _ params).
  rewrite (add_params_range (H := example_range)).
  unfold Set_. rewrite lookup_insert_ne by done. rewrite lookup_insert_eq.
  destruct (params !! "key") as [v|]; [|by eexists].
  destruct (nonempty v); by eexists.
Qed.

Lemma request_query_text c params :
  ∃ a q, Encode (request_query c params) = String a q
       ∧ query_text (String a q).
Proof.
  destruct (request_query_key c params) as [xs Hk].
  pose proof (Encode_nonempty _ _ _ _ Hk) as Hne.
  pose proof (query_text_Encode (request_query c params)) as Hq.
  destruct (Encode (request_query c params)) as [|a q]; [done|].
  by exists a, q.
Qed.

Lemma buildURL_URL_plain c h e params :
  baseURL c = "https://" +:+ h → plain_host h → plain_path e →
  Carsxe.buildURL_URL c e params
  = Ok (https_url h (String "/" (TrimLeft e "/"))
          (Encode (request_query c params))).
Proof.
  intros Hc Hh He. unfold Carsxe.buildURL_URL. rewrite Hc.
  rewrite app_assoc'.
  change ("/" +:+ TrimLeft e "/") with (String "/" (TrimLeft e "/")).
  rewrite (plain_Parse h (TrimLeft e "/")) by by try apply plain_path_TrimLeft.
  cbn [mbind result_bind].
  rewrite <- (request_query_range c params
                (https_url h (String "/" (TrimLeft e "/")) "")) by done.
  reflexivity.
Qed.

Lemma buildURL_plain c h e params :
  baseURL c = "https://" +:+ h → plain_host h → plain_path e →
  Carsxe.buildURL c e params
  = Ok (https_text h e (Encode (request_query c params))).
Proof.
  intros Hc Hh He. unfold Carsxe.buildURL.
  rewrite (buildURL_URL_plain c h e params) by done.
  cbn [fmap result_fmap]. f_equal.
  destruct (request_query_text c params) as (a & q & Hq & _).
  rewrite Hq.
  change (https_url h (String "/" (TrimLeft e "/")) (String a q))
    with (setRawQuery (https_url h (String "/" (TrimLeft e "/")) "")
            (String a q)).
  rewrite String_setRawQuery by done.
  rewrite plain_String_hier by by try apply plain_path_TrimLeft.
  unfold https_text, fragment_text. cbn [Fragment https_url].
  change (nonempty "") with false. cbv iota.
  rewrite !app_assoc'. by rewrite app_empty_r.
Qed.

Lemma https_text_assoc h e a q :
  https_text h e (String a q)
  = "https://" +:+ (h +:+ String "/" (TrimLeft e "/"))
    +:+ String "?" (String a q).
Proof. unfold https_text. by rewrite (app_assoc' h). Qed.

Lemma removeEmptyPort_plain h :
  plain_host h → NetHTTP.removeEmptyPort h = h.
Proof.
  intros Hh. unfold NetHTTP.removeEmptyPort, NetHTTP.hasPort.
  by rewrite (CutLast_absent h ":") by by apply plain_host_Contains.
Qed.

Lemma NewRequestWithContext_plain ctx method h e a q body :
  plain_host h → plain_path e → query_text (String a q) →
  NetHTTP.NewRequestWithContext ctx method (https_text h e (String a q)) body
  = Ok (https_request ctx method h (String "/" (TrimLeft e "/"))
          (String a q) ∅ body).
Proof.
  intros Hh He Hq. unfold NetHTTP.NewRequestWithContext.
  rewrite https_text_assoc.
  rewrite plain_Parse_query by by try apply plain_path_TrimLeft.
  cbn [mbind result_bind https_url Host Scheme Opaque User Path RawPath
       OmitHost ForceQuery RawQuery Fragment RawFragment].
  by rewrite removeEmptyPort_plain.
Qed.

(** The request of a run for a base URL [https://host]. *)
Lemma request_plain ctx method c h e params body :
  baseURL c = "https://" +:+ h → plain_host h → plain_path e →
  Carsxe.buildURL c e params
  = Ok (https_text h e (Encode (request_query c params)))
  ∧ NetHTTP.NewRequestWithContext ctx method
      (https_text h e (Encode (request_query c params))) body
    = Ok (https_request ctx method h (String "/" (TrimLeft e "/"))
            (Encode (request_query c params)) ∅ body).
Proof.
  intros Hc Hh He. split; [by apply buildURL_plain|].
  destruct (request_query_text c params) as (a & q & -> & Hq).
  by apply NewRequestWithContext_plain.
Qed.

Lemma Get_plain_run ctx c h e params :
  baseURL c = "https://" +:+ h → plain_host h → plain_path e →
  let req := https_request ctx "GET" h (String "/" (TrimLeft e "/"))
               (Encode (request_query c params)) ∅ None in
  Carsxe.Get ctx c e params
  = ([CallBuildURL e params; HTTPDo req], (Carsxe.doRequest c req).2).
Proof.
  intros Hc Hh He req.
  destruct (request_plain ctx "GET" c h e params None Hc Hh He) as [Hb Hr].
  by rewrite Get_run, Hb, Hr.
Qed.

Lemma Get_panic_plain_run c h e params :
  baseURL c = "https://" +:+ h → plain_host h → plain_path e →
  let req := https_request context_Background "GET" h
               (String "/" (TrimLeft e "/"))
               (Encode (request_query c params)) ∅ None in
  CarsxePanic.Get c e params
  = ([CallBuildURL e params; HTTPDo req], (CarsxePanic.doRequest c req).2).
Proof.
  intros Hc Hh He req.
  destruct (request_plain context_Background "GET" c h e params None Hc Hh He)
    as [Hb%buildURL_Return_Ok Hr].
  rewrite Get_panic_run, Hb. unfold NetHTTP.NewRequest. by rewrite Hr.
Qed.

(** [postJSON], by cases on what the builder and the request constructor
    return. *)
Lemma postJSON_run ctx c endpoint body :
  Carsxe.postJSON ctx c endpoint body
  = match Carsxe.buildURL c endpoint ∅ with
    | Err e => ([CallBuildURL endpoint ∅], Err e)
    | Ok urlStr =>
        match NetHTTP.NewRequestWithContext ctx "POST" urlStr
                (Some (json_buffer body)) with
        | Err e => ([CallBuildURL endpoint ∅], Err e)
        | Ok req0 =>
            let req :=
              NetHTTP.setHeader req0 "Content-Type" "application/json" in
            ([CallBuildURL endpoint ∅; HTTPDo req],
             (Carsxe.doRequest c req).2)
        end
    end.
Proof.
  unfold Carsxe.postJSON. fold (json_buffer body).
  destruct (Carsxe.buildURL c endpoint ∅) as [urlStr|e]; simpl; [|done].
  destruct (NetHTTP.NewRequestWithContext ctx "POST" urlStr _)
    as [req|e]; simpl; [|done].
  pose proof (doRequest_events c
    (NetHTTP.setHeader req "Content-Type" "application/json")) as Hev.
  destruct (Carsxe.doRequest c _) as [t r]. simpl in *. by subst t.
Qed.

Lemma postJSON_panic_run c endpoint body :
  CarsxePanic.postJSON c endpoint body
  = match CarsxePanic.buildURL c endpoint ∅ with
    | Panic v => ([CallBuildURL endpoint ∅], Panic v)
    | Return urlStr =>
        match NetHTTP.NewRequest "POST" urlStr (Some (json_buffer body)) with
        | Err e =>
            ([CallBuildURL endpoint ∅],
             Panic ("Failed to create request: " +:+ Error e))
        | Ok req0 =>
            let req :=
              NetHTTP.setHeader req0 "Content-Type" "application/json" in
            ([CallBuildURL endpoint ∅; HTTPDo req],
             (CarsxePanic.doRequest c req).2)
        end
    end.
Proof.
  unfold CarsxePanic.postJSON. fold (json_buffer body).
  destruct (CarsxePanic.buildURL c endpoint ∅) as [urlStr|e]; simpl; [|done].
  destruct (NetHTTP.NewRequest "POST" urlStr _) as [req|e]; simpl; [|done].
  pose proof (doRequest_panic_events c
    (NetHTTP.setHeader req "Content-Type" "application/json")) as Hev.
  destruct (CarsxePanic.doRequest c _) as [t r]. simpl in *. by subst t.
Qed.

Lemma postJSON_plain_run ctx c h e body :
  baseURL c = "https://" +:+ h → plain_host h → plain_path e →
  let req := https_request ctx "POST" h (String "/" (TrimLeft e "/"))
               (Encode (request_query c ∅)) json_header
               (Some (json_buffer body)) in
  Carsxe.postJSON ctx c e body
  = ([CallBuildURL e ∅; HTTPDo req], (Carsxe.doRequest c req).2).
Proof.
  intros Hc Hh He req.
  destruct (request_plain ctx "POST" c h e ∅ (Some (json_buffer body))
              Hc Hh He) as [Hb Hr].
  by rewrite postJSON_run, Hb, Hr.
Qed.

Lemma postJSON_panic_plain_run c h e body :
  baseURL c = "https://" +:+ h → plain_host h → plain_path e →
  let req := https_request context_Background "POST" h
               (String "/" (TrimLeft e "/"))
               (Encode (request_query c ∅)) json_header
               (Some (json_buffer body)) in
  CarsxePanic.postJSON c e body
  = ([CallBuildURL e ∅; HTTPDo req], (CarsxePanic.doRequest c req).2).
Proof.
  intros Hc Hh He req.
  destruct (request_plain context_Background "POST" c h e ∅
              (Some (json_buffer body)) Hc Hh He)
    as [Hb%buildURL_Return_Ok Hr].
  rewrite postJSON_panic_run, Hb. unfold NetHTTP.NewRequest. by rewrite Hr.
Qed.

Lemma request_query_lookup c params k :
  request_query c params !! k = sent_values c params k.
Proof.
  unfold request_query, sent_values, caller_values.
  change (map_to_list params) with (@range example_range _ params).
  rewrite (add_params_range (H := example_range)).
  unfold Set_. rewrite !lookup_insert, lookup_empty.
  repeat case_decide; simplify_eq;
    destruct (params !! _) as [v|]; try done; by destruct (nonempty v).
Qed.

Lemma request_query_wf c params : wf_values (request_query c params).
Proof.
  apply wf_values_add_params, wf_values_Set, wf_values_Set, wf_values_empty.
Qed.

Lemma request_query_empty c :
  Encode (request_query c ∅) = key_source_text c.
Proof.
  rewrite Encode_pairs.
  assert (pairs (request_query c ∅)
          = [("key", apiKey c); ("source", source c)]) as ->
    by (vm_compute; reflexivity).
  rewrite fmap_cons.
  change (foldl join_step "" (?p :: ?l)) with (foldl join_step p l).
  rewrite foldl_join_step by apply pair_text_nonempty.
  unfold tail_text, pair_text, key_source_text.
  cbn [foldr fmap list_fmap fst snd].
  change (QueryEscape "key") with "key".
  change (QueryEscape "source") with "source".
  rewrite !app_assoc', app_empty_r. reflexivity.
Qed.

End plain_requests.

(** ** The plate decoder example, for a base URL [https://host] *)

Section plate_example_request.
Import GoStrings NetURL.
Context `{MapRange, GoLib}.




End plate_example_request.

Section plate_example_witness.
Import GoStrings NetURL.


End plate_example_witness.

Section plain_properties.
Import GoStrings NetURL.
Context `{MapRange, GoLib}.

(** X4: for a client whose base URL is [https://host], the host made of
    lower-case letters, digits, dots and hyphens, and an endpoint made of
    letters, digits, hyphens, underscores, dots and slashes, [buildURL]
    returns in both implementations the text
    [https://host/endpoint?query], the endpoint without its leading
    slashes.  The URL parser reads that text back as the host, the path
    and the query; the query parser reads the query back as the
    parameters that were encoded: the API key first under [key], the
    source tag first under [source], and under every name the caller's
    value when it is not empty. *)
Theorem buildURL_plain_text (c : Client) (h e : string)
    (params : gmap string string) :
  baseURL c = "https://" +:+ h → plain_host h → plain_path e →
  Carsxe.buildURL c e params
  = Ok (https_text h e (Encode (request_query c params)))
  ∧ CarsxePanic.buildURL c e params
    = Return (https_text h e (Encode (request_query c params)))
  ∧ Parse (https_text h e (Encode (request_query c params)))
    = Ok (https_url h (String "/" (TrimLeft e "/"))
            (Encode (request_query c params)))
  ∧ ParseQuery (Encode (request_query c params))
    = (request_query c params, None)
  ∧ ∀ k, request_query c params !! k = sent_values c params k.
Proof.
  intros Hc Hh He.
  pose proof (buildURL_plain c h e params Hc Hh He) as Hb.
  split; [done|]. split; [by apply buildURL_Return_Ok|].
  split; [|split].
  - destruct (request_query_text c params) as (a & q & -> & Hq).
    rewrite https_text_assoc.
    by apply plain_Parse_query; try apply plain_path_TrimLeft.
  - apply ParseQuery_Encode, request_query_wf.
  - apply request_query_lookup.
Qed.

(** X5: for such a client and endpoint, [Get] calls the URL builder and
    then sends exactly one request, in both implementations: the GET
    request for [https://host/endpoint?query], to the host [host],
    without headers and without a body; the result of [Get] is what
    [doRequest] makes of the response to that request. *)
Theorem Get_sends_one_request (ctx : Context) (c : Client) (h e : string)
    (params : gmap string string) :
  baseURL c = "https://" +:+ h → plain_host h → plain_path e →
  Carsxe.Get ctx c e params
  = ([CallBuildURL e params;
      HTTPDo (get_request ctx c h (String "/" (TrimLeft e "/")) params)],
     (Carsxe.doRequest c
        (get_request ctx c h (String "/" (TrimLeft e "/")) params)).2)
  ∧ CarsxePanic.Get c e params
    = ([CallBuildURL e params;
        HTTPDo (get_request context_Background c h
                  (String "/" (TrimLeft e "/")) params)],
       (CarsxePanic.doRequest c
          (get_request context_Background c h
             (String "/" (TrimLeft e "/")) params)).2).
Proof.
  intros Hc Hh He. split.
  - by apply Get_plain_run.
  - by apply Get_panic_plain_run.
Qed.

(** X6: the endpoint of each convenience method.  For a client whose
    base URL is [https://host], each of the nine methods built on [Get]
    calls the URL builder with its endpoint and the caller's parameters
    and sends one GET request, to the path of that endpoint: [/specs],
    [/v2/marketvalue], [/history], [/v1/recalls],
    [/v1/international-vin-decoder], [/v2/platedecoder], [/v1/ymm],
    [/images] and [/obdcodesdecoder]; in both implementations. *)
Theorem Get_methods_endpoints (ctx : Context) (c : Client) (h : string)
    (params : gmap string string) :
  baseURL c = "https://" +:+ h → plain_host h →
  (sends (Carsxe.Specs ctx c params).1 "specs" params
     (get_request ctx c h "/specs" params)
   ∧ sends (Carsxe.MarketValue ctx c params).1 "v2/marketvalue" params
       (get_request ctx c h "/v2/marketvalue" params)
   ∧ sends (Carsxe.History ctx c params).1 "history" params
       (get_request ctx c h "/history" params)
   ∧ sends (Carsxe.Recalls ctx c params).1 "v1/recalls" params
       (get_request ctx c h "/v1/recalls" params)
   ∧ sends (Carsxe.InternationalVINDecoder ctx c params).1
       "v1/international-vin-decoder" params
       (get_request ctx c h "/v1/international-vin-decoder" params)
   ∧ sends (Carsxe.PlateDecoder ctx c params).1 "v2/platedecoder" params
       (get_request ctx c h "/v2/platedecoder" params)
   ∧ sends (Carsxe.YearMakeModel ctx c params).1 "v1/ymm" params
       (get_request ctx c h "/v1/ymm" params)
   ∧ sends (Carsxe.Images ctx c params).1 "images" params
       (get_request ctx c h "/images" params)
   ∧ sends (Carsxe.ObdCodesDecoder ctx c params).1 "obdcodesdecoder" params
       (get_request ctx c h "/obdcodesdecoder" params))
  ∧ (sends (CarsxePanic.Specs c params).1 "specs" params
       (get_request context_Background c h "/specs" params)
     ∧ sends (CarsxePanic.MarketValue c params).1 "v2/marketvalue" params
         (get_request context_Background c h "/v2/marketvalue" params)
     ∧ sends (CarsxePanic.History c params).1 "history" params
         (get_request context_Background c h "/history" params)
     ∧ sends (CarsxePanic.Recalls c params).1 "v1/recalls" params
         (get_request context_Background c h "/v1/recalls" params)
     ∧ sends (CarsxePanic.InternationalVINDecoder c params).1
         "v1/international-vin-decoder" params
         (get_request context_Background c h
            "/v1/international-vin-decoder" params)
     ∧ sends (CarsxePanic.PlateDecoder c params).1 "v2/platedecoder" params
         (get_request context_Background c h "/v2/platedecoder" params)
     ∧ sends (CarsxePanic.YearMakeModel c params).1 "v1/ymm" params
         (get_request context_Background c h "/v1/ymm" params)
     ∧ sends (CarsxePanic.Images c params).1 "images" params
         (get_request context_Background c h "/images" params)
     ∧ sends (CarsxePanic.ObdCodesDecoder c params).1 "obdcodesdecoder"
         params (get_request context_Background c h "/obdcodesdecoder"
                   params)).
Proof.
  intros Hc Hh.
  unfold Carsxe.Specs, Carsxe.MarketValue, Carsxe.History, Carsxe.Recalls,
    Carsxe.InternationalVINDecoder, Carsxe.PlateDecoder,
    Carsxe.YearMakeModel, Carsxe.Images, Carsxe.ObdCodesDecoder,
    CarsxePanic.Specs, CarsxePanic.MarketValue, CarsxePanic.History,
    CarsxePanic.Recalls, CarsxePanic.InternationalVINDecoder,
    CarsxePanic.PlateDecoder, CarsxePanic.YearMakeModel,
    CarsxePanic.Images, CarsxePanic.ObdCodesDecoder, sends.
  split.
  - repeat split;
      (rewrite (Get_plain_run ctx c h) by (done || reflexivity);
       reflexivity).
  - repeat split;
      (rewrite (Get_panic_plain_run c h) by (done || reflexivity);
       reflexivity).
Qed.

(** X7: the image endpoints.  For a client whose base URL is
    [https://host] and an image URL [U] that is neither empty nor white
    space only, [PlateImageRecognition] and [VinOCR] call the URL builder
    without parameters and send one POST request, to [/platerecognition]
    and to [/v1/vinocr]: its query is [key=] and [source=] with the
    escaped API key and source tag and nothing of the image, its only
    header is the Content-Type of JSON, and its body is the JSON object
    with the field [image]; the result is what [doRequest] makes of the
    response.  In both implementations. *)
Theorem image_methods_endpoints (ctx : Context) (c : Client) (h U : string) :
  baseURL c = "https://" +:+ h → plain_host h → ¬ only_whitespace U →
  Carsxe.PlateImageRecognition ctx c U
  = ([CallBuildURL "platerecognition" ∅;
      HTTPDo (post_request ctx c h "/platerecognition" (image_body U))],
     (Carsxe.doRequest c
        (post_request ctx c h "/platerecognition" (image_body U))).2)
  ∧ Carsxe.VinOCR ctx c U
    = ([CallBuildURL "v1/vinocr" ∅;
        HTTPDo (post_request ctx c h "/v1/vinocr" (image_body U))],
       (Carsxe.doRequest c
          (post_request ctx c h "/v1/vinocr" (image_body U))).2)
  ∧ CarsxePanic.PlateImageRecognition c U
    = ([CallBuildURL "platerecognition" ∅;
        HTTPDo (post_request context_Background c h "/platerecognition"
                  (image_body U))],
       (CarsxePanic.doRequest c
          (post_request context_Background c h "/platerecognition"
             (image_body U))).2)
  ∧ CarsxePanic.VinOCR c U
    = ([CallBuildURL "v1/vinocr" ∅;
        HTTPDo (post_request context_Background c h "/v1/vinocr"
                  (image_body U))],
       (CarsxePanic.doRequest c
          (post_request context_Background c h "/v1/vinocr"
             (image_body U))).2).
Proof.
  intros Hc Hh HU%TrimSpace_test.
  unfold Carsxe.PlateImageRecognition, Carsxe.VinOCR,
    CarsxePanic.PlateImageRecognition, CarsxePanic.VinOCR, post_request.
  rewrite HU, <- request_query_empty, <- json_Encode_image.
  split; [|split; [|split]].
  - by rewrite (postJSON_plain_run ctx c h).
  - by rewrite (postJSON_plain_run ctx c h).
  - by rewrite (postJSON_panic_plain_run c h).
  - by rewrite (postJSON_panic_plain_run c h).
Qed.

End plain_properties.

(** ** Runs of the methods, for every client *)

Section run_facts.
Import GoStrings NetURL.
Context `{MapRange, GoLib}.

Lemma doRequest_Ok_inv c req m :
  (Carsxe.doRequest c req).2 = Ok m →
  ∃ resp body,
    NetHTTP.Do (httpClient c) req = Ok resp
    ∧ NetHTTP.ReadAll_Body resp = Ok body
    ∧ (200 ≤ NetHTTP.StatusCode resp < 300)%Z
    ∧ (if String.eqb body "" then m = ∅ else json_Unmarshal body = Ok m).
Proof.
  destruct (NetHTTP.Do (httpClient c) req) as [resp|e] eqn:Hdo.
  2:{ unfold Carsxe.doRequest. by rewrite Hdo. }
  destruct (NetHTTP.ReadAll_Body resp) as [body|e] eqn:Hread.
  2:{ unfold Carsxe.doRequest. rewrite Hdo. simpl. by rewrite Hread. }
  rewrite (doRequest_response c req resp body Hdo Hread). simpl.
  destruct (_ || _) eqn:Hst; [done|].
  intros Hm. exists resp, body. split; [done|]. split; [done|]. split.
  - assert (¬ ((NetHTTP.StatusCode resp < 200)%Z
               ∨ (NetHTTP.StatusCode resp >= 300)%Z)) as Hno
      by (rewrite non_2xx_test; congruence).
    lia.
  - destruct (String.eqb body ""); [by injection Hm|].
    by destruct (json_Unmarshal body).
Qed.

Lemma doRequest_agrees c req :
  agrees (Carsxe.doRequest c req) (CarsxePanic.doRequest c req).
Proof.
  split; [by rewrite doRequest_events, doRequest_panic_events|].
  intros m (resp & body & Hdo & Hread & _ & Hm)%doRequest_Ok_inv.
  rewrite (doRequest_panic_response c req resp body Hdo Hread). simpl.
  destruct (String.eqb body ""); [by subst m|]. by rewrite Hm.
Qed.

Lemma Get_agrees c endpoint params :
  agrees (Carsxe.Get context_Background c endpoint params)
         (CarsxePanic.Get c endpoint params).
Proof.
  rewrite Get_run, Get_panic_run. unfold NetHTTP.NewRequest.
  destruct (Carsxe.buildURL c endpoint params) as [url|e] eqn:Hb.
  - rewrite (buildURL_Return_Ok _ _ _ _ Hb).
    destruct (NetHTTP.NewRequestWithContext _ _ _ _) as [req|e]; [|done].
    split; [done|]. apply doRequest_agrees.
  - apply buildURL_Panic_Err in Hb as [v ->]. done.
Qed.

Lemma postJSON_agrees c endpoint body :
  agrees (Carsxe.postJSON context_Background c endpoint body)
         (CarsxePanic.postJSON c endpoint body).
Proof.
  rewrite postJSON_run, postJSON_panic_run. unfold NetHTTP.NewRequest.
  destruct (Carsxe.buildURL c endpoint ∅) as [url|e] eqn:Hb.
  - rewrite (buildURL_Return_Ok _ _ _ _ Hb).
    destruct (NetHTTP.NewRequestWithContext _ _ _ _) as [req|e]; [|done].
    split; [done|]. apply doRequest_agrees.
  - apply buildURL_Panic_Err in Hb as [v ->]. done.
Qed.

End run_facts.

Section run_properties.
Import GoStrings NetURL.
Context `{MapRange, GoLib}.

(** X8: the two implementations agree wherever [main.go] succeeds.
    [Get], the image endpoints and [postJSON] of the older implementation
    make the same calls and send the same requests as those of [main.go]
    run with the background context, and return the same result whenever
    [main.go] returns one. *)
Theorem implementations_agree (c : Client) (endpoint imageURL : string)
    (params : gmap string string) (body : option (gmap string string)) :
  agrees (Carsxe.Get context_Background c endpoint params)
         (CarsxePanic.Get c endpoint params)
  ∧ agrees (Carsxe.postJSON context_Background c endpoint body)
           (CarsxePanic.postJSON c endpoint body)
  ∧ agrees (Carsxe.PlateImageRecognition context_Background c imageURL)
           (CarsxePanic.PlateImageRecognition c imageURL)
  ∧ agrees (Carsxe.VinOCR context_Background c imageURL)
           (CarsxePanic.VinOCR c imageURL).
Proof.
  split; [apply Get_agrees|]. split; [apply postJSON_agrees|].
  unfold Carsxe.PlateImageRecognition, Carsxe.VinOCR,
    CarsxePanic.PlateImageRecognition, CarsxePanic.VinOCR.
  destruct (String.eqb (TrimSpace imageURL) "");
    [by split|split; apply postJSON_agrees].
Qed.

(** X9: [Get] of [main.go] returns a result only in one way: the URL
    was built, the request constructor accepted it, the one request was
    sent and answered, the body was read, the status was in 200..299,
    and the result is the empty map for an empty body and what the JSON
    decoder returned for any other. *)
Theorem Get_success_inversion (ctx : Context) (c : Client)
    (endpoint : string) (params : gmap string string) (t : list event)
    (m : gmap string any) :
  Carsxe.Get ctx c endpoint params = (t, Ok m) →
  ∃ url req resp body,
    Carsxe.buildURL c endpoint params = Ok url
    ∧ NetHTTP.NewRequestWithContext ctx "GET" url None = Ok req
    ∧ t = [CallBuildURL endpoint params; HTTPDo req]
    ∧ NetHTTP.Do (httpClient c) req = Ok resp
    ∧ NetHTTP.ReadAll_Body resp = Ok body
    ∧ (200 ≤ NetHTTP.StatusCode resp < 300)%Z
    ∧ (if String.eqb body "" then m = ∅ else json_Unmarshal body = Ok m).
Proof.
  rewrite Get_run.
  destruct (Carsxe.buildURL c endpoint params) as [url|e]; [|done].
  destruct (NetHTTP.NewRequestWithContext _ _ _ _) as [req|e] eqn:Hreq;
    [|done].
  intros [= <- Hm].
  apply doRequest_Ok_inv in Hm as (resp & body & Hdo & Hread & Hst & Hm).
  by exists url, req, resp, body.
Qed.

(** X10: no retries and no stray requests.  Every run of [Get] and of
    [postJSON], in both implementations, is the call to the URL builder
    followed by at most one request.  A request of [Get] is a GET request
    without body and headers; a request of [postJSON] is a POST request
    whose body is the encoded JSON (empty for a nil body) and whose only
    header is the Content-Type of JSON.  The request carries the
    caller's context in [main.go], the background context in the older
    implementation. *)
Theorem runs_shape (ctx : Context) (c : Client) (endpoint : string)
    (params : gmap string string) (body : option (gmap string string)) :
  run_of (Carsxe.Get ctx c endpoint params).1 endpoint params (is_get ctx)
  ∧ run_of (CarsxePanic.Get c endpoint params).1 endpoint params
      (is_get context_Background)
  ∧ run_of (Carsxe.postJSON ctx c endpoint body).1 endpoint ∅
      (is_json_post ctx (json_buffer body))
  ∧ run_of (CarsxePanic.postJSON c endpoint body).1 endpoint ∅
      (is_json_post context_Background (json_buffer body)).
Proof.
  assert (∀ ctx' method url b req,
            NetHTTP.NewRequestWithContext ctx' method url b = Ok req →
            NetHTTP.Method req = method ∧ NetHTTP.Body req = b
            ∧ NetHTTP.Headers req = ∅ ∧ NetHTTP.ctx req = ctx') as Hnew.
  { intros ctx' method url b req. unfold NetHTTP.NewRequestWithContext.
    destruct (Parse url) as [u|e]; [|done]. simpl. by intros [= <-]. }
  split; [|split; [|split]].
  - rewrite Get_run.
    destruct (Carsxe.buildURL _ _ _) as [url|e]; [|by left].
    destruct (NetHTTP.NewRequestWithContext _ _ _ _) as [req|e] eqn:Hreq;
      [|by left].
    right. exists req. split; [done|]. by apply Hnew in Hreq.
  - rewrite Get_panic_run. unfold NetHTTP.NewRequest.
    destruct (CarsxePanic.buildURL _ _ _) as [url|e]; [|by left].
    destruct (NetHTTP.NewRequestWithContext _ _ _ _) as [req|e] eqn:Hreq;
      [|by left].
    right. exists req. split; [done|]. by apply Hnew in Hreq.
  - rewrite postJSON_run.
    destruct (Carsxe.buildURL _ _ _) as [url|e]; [|by left].
    destruct (NetHTTP.NewRequestWithContext _ _ _ _) as [req|e] eqn:Hreq;
      [|by left].
    right. eexists. split; [done|].
    apply Hnew in Hreq as (Hm & Hb & Hh & Hc).
    unfold is_json_post, NetHTTP.setHeader, NetHTTP.Header_Set.
    cbn [NetHTTP.Method NetHTTP.Body NetHTTP.Headers NetHTTP.ctx].
    by rewrite Hh.
  - rewrite postJSON_panic_run. unfold NetHTTP.NewRequest.
    destruct (CarsxePanic.buildURL _ _ _) as [url|e]; [|by left].
    destruct (NetHTTP.NewRequestWithContext _ _ _ _) as [req|e] eqn:Hreq;
      [|by left].
    right. eexists. split; [done|].
    apply Hnew in Hreq as (Hm & Hb & Hh & Hc).
    unfold is_json_post, NetHTTP.setHeader, NetHTTP.Header_Set.
    cbn [NetHTTP.Method NetHTTP.Body NetHTTP.Headers NetHTTP.ctx].
    by rewrite Hh.
Qed.

(** X11: an error of the transport, or of reading the response body, is
    passed on.  [doRequest] of [main.go] returns that error unchanged,
    whatever the status of the response; the older implementation panics
    with the text of the error after [HTTP request failed: ] or
    [Failed to read response body: ].  The request was sent once. *)
Theorem doRequest_transport_error (c : Client) (req : NetHTTP.Request)
    (err : error) :
  received c req = Err err →
  Carsxe.doRequest c req = ([HTTPDo req], Err err)
  ∧ CarsxePanic.doRequest c req
    = ([HTTPDo req],
       Panic ((match NetHTTP.Do (httpClient c) req with
               | Err _ => "HTTP request failed: "
               | Ok _ => "Failed to read response body: "
               end) +:+ Error err)).
Proof.
  unfold received, Carsxe.doRequest, CarsxePanic.doRequest.
  destruct (NetHTTP.Do (httpClient c) req) as [resp|e]; simpl.
  - destruct (NetHTTP.ReadAll_Body resp) as [body|e]; simpl; [done|].
    by intros [= ->].
  - by intros [= ->].
Qed.

(** X12: a response with a status in 200..299 and a body that is not
    empty and that the JSON decoder accepts is the success case: both
    implementations return what the decoder returned, after the one
    request. *)
Theorem doRequest_decodes_body (c : Client) (req : NetHTTP.Request)
    (resp : NetHTTP.Response) (body : string) (m : gmap string any) :
  NetHTTP.Do (httpClient c) req = Ok resp →
  (200 ≤ NetHTTP.StatusCode resp < 300)%Z →
  NetHTTP.ReadAll_Body resp = Ok body →
  body ≠ "" →
  json_Unmarshal body = Ok m →
  Carsxe.doRequest c req = ([HTTPDo req], Ok m)
  ∧ CarsxePanic.doRequest c req = ([HTTPDo req], Return m).
Proof.
  intros Hdo Hst Hread Hne Hm.
  rewrite (doRequest_response c req resp body Hdo Hread),
    (doRequest_panic_response c req resp body Hdo Hread).
  rewrite (is_2xx_test _ Hst), Hm.
  by destruct (String.eqb_spec body "").
Qed.

(** X13: the older implementation never looks at the status code: two
    responses with the same body give the same outcome of [doRequest],
    whatever their status codes. *)
Theorem doRequest_panic_ignores_status (c c' : Client)
    (req : NetHTTP.Request) (resp resp' : NetHTTP.Response) :
  NetHTTP.Do (httpClient c) req = Ok resp →
  NetHTTP.Do (httpClient c') req = Ok resp' →
  NetHTTP.ReadAll_Body resp = NetHTTP.ReadAll_Body resp' →
  CarsxePanic.doRequest c req = CarsxePanic.doRequest c' req.
Proof.
  intros Hdo Hdo' Hbody. unfold CarsxePanic.doRequest.
  by rewrite Hdo, Hdo', Hbody.
Qed.

(** X14: a base URL that the URL parser rejects.  When the text
    [baseURL/endpoint] does not parse, [Get] and [postJSON] stop after
    the call to the URL builder and send nothing: [main.go] returns the
    parser's error unchanged, the older implementation panics with the
    text of that error after [Failed to parse URL: ]. *)
Theorem unparsable_base_sends_nothing (ctx : Context) (c : Client)
    (endpoint : string) (params : gmap string string)
    (body : option (gmap string string)) (err : error) :
  Parse (baseURL c +:+ "/" +:+ TrimLeft endpoint "/") = Err err →
  Carsxe.Get ctx c endpoint params = ([CallBuildURL endpoint params], Err err)
  ∧ Carsxe.postJSON ctx c endpoint body = ([CallBuildURL endpoint ∅], Err err)
  ∧ CarsxePanic.Get c endpoint params
    = ([CallBuildURL endpoint params],
       Panic ("Failed to parse URL: " +:+ Error err))
  ∧ CarsxePanic.postJSON c endpoint body
    = ([CallBuildURL endpoint ∅],
       Panic ("Failed to parse URL: " +:+ Error err)).
Proof.
  intros Hp.
  assert (∀ p, Carsxe.buildURL c endpoint p = Err err) as Hb.
  { intros p. unfold Carsxe.buildURL, Carsxe.buildURL_URL. by rewrite Hp. }
  assert (∀ p, CarsxePanic.buildURL c endpoint p
               = Panic ("Failed to parse URL: " +:+ Error err)) as Hb'.
  { intros p. unfold CarsxePanic.buildURL, CarsxePanic.buildURL_URL.
    by rewrite Hp. }
  by rewrite Get_run, postJSON_run, Get_panic_run, postJSON_panic_run,
    !Hb, !Hb'.
Qed.

(** X15: the query of a built URL, name by name.  Under every name the
    URL that [buildURL] builds has the values the query starts from
    (the API key under [key], the source tag under [source], under any
    other name the values of the query embedded in the base URL),
    followed by the caller's value for that name when the caller gave
    one that is not empty; so a caller's value that is not empty is
    always the last value under its name.  The query has no other
    entries, and encoding it and parsing the result gives it back. *)
Theorem buildURL_query (c : Client) (endpoint : string)
    (params : gmap string string) (u' : URL) :
  builds c endpoint params u' →
  ∃ u, Parse (baseURL c +:+ "/" +:+ TrimLeft endpoint "/") = Ok u
     ∧ (∀ k, Query u' !! k
             = match caller_values params k with
               | [] => client_query c u !! k
               | l => Some (default [] (client_query c u !! k) ++ l)
               end)
     ∧ (∀ k v, params !! k = Some v → v ≠ "" →
               last (default [] (Query u' !! k)) = Some v)
     ∧ ParseQuery (Encode (Query u')) = (Query u', None).
Proof.
  intros Hb%builds_Ok.
  destruct (built_query_lookup c endpoint params u' Hb) as (u & Hu & Hq).
  exists u. split; [done|].
  assert (∀ v, v ≠ "" → nonempty v = true) as Hne.
  { intros v Hv. unfold nonempty. by destruct v. }
  split; [|split].
  - intros k. rewrite Hq. unfold caller_values.
    destruct (params !! k) as [v|]; [|done]. by destruct (nonempty v).
  - intros k v Hk Hv. rewrite Hq, Hk, (Hne v Hv). simpl.
    by rewrite last_snoc.
  - apply buildURL_URL_Ok in Hb as (u0 & _ & ->).
    rewrite Query_setRawQuery_Encode
      by apply wf_values_add_params, wf_values_client_query.
    apply ParseQuery_Encode, wf_values_add_params, wf_values_client_query.
Qed.

End run_properties.

(** ** Examples of the further properties *)

Section further_examples.
Import GoStrings NetURL.

Lemma buildURL_plain_text_witness :
  @Carsxe.buildURL example_range example_c "/specs" example_vin
  = Ok (https_text "api.carsxe.com" "/specs"
          (@Encode example_range (request_query example_c example_vin)))
  ∧ @CarsxePanic.buildURL example_range example_lib example_c "/specs"
      example_vin
    = Return (https_text "api.carsxe.com" "/specs"
                (@Encode example_range
                   (request_query example_c example_vin)))
  ∧ Parse (https_text "api.carsxe.com" "/specs"
             (@Encode example_range (request_query example_c example_vin)))
    = Ok (https_url "api.carsxe.com" (String "/" (TrimLeft "/specs" "/"))
            (@Encode example_range (request_query example_c example_vin)))
  ∧ ParseQuery (@Encode example_range (request_query example_c example_vin))
    = (request_query example_c example_vin, None)
  ∧ ∀ k, request_query example_c example_vin !! k
         = sent_values example_c example_vin k.
Proof.
  apply (@buildURL_plain_text example_range example_lib example_c
           "api.carsxe.com" "/specs" example_vin); reflexivity.
Defined.

Lemma Get_sends_one_request_witness :
  @Carsxe.Get example_range example_lib context_Background example_c
    "specs" example_vin
  = ([CallBuildURL "specs" example_vin;
      HTTPDo (@get_request example_range context_Background example_c
                "api.carsxe.com" (String "/" (TrimLeft "specs" "/"))
                example_vin)],
     (@Carsxe.doRequest example_lib example_c
        (@get_request example_range context_Background example_c
           "api.carsxe.com" (String "/" (TrimLeft "specs" "/"))
           example_vin)).2)
  ∧ @CarsxePanic.Get example_range example_lib example_c "specs" example_vin
    = ([CallBuildURL "specs" example_vin;
        HTTPDo (@get_request example_range context_Background example_c
                  "api.carsxe.com" (String "/" (TrimLeft "specs" "/"))
                  example_vin)],
       (@CarsxePanic.doRequest example_lib example_c
          (@get_request example_range context_Background example_c
             "api.carsxe.com" (String "/" (TrimLeft "specs" "/"))
             example_vin)).2).
Proof.
  apply (@Get_sends_one_request example_range example_lib context_Background
           example_c "api.carsxe.com" "specs" example_vin); reflexivity.
Defined.

Lemma Get_methods_endpoints_witness :
  (sends (@Carsxe.Specs example_range example_lib context_Background
            example_c example_vin).1
     "specs" example_vin
     (@get_request example_range context_Background example_c
        "api.carsxe.com" "/specs" example_vin)
   ∧ sends (@Carsxe.MarketValue example_range example_lib context_Background
            example_c example_vin).1
     "v2/marketvalue" example_vin
     (@get_request example_range context_Background example_c
        "api.carsxe.com" "/v2/marketvalue" example_vin)
   ∧ sends (@Carsxe.History example_range example_lib context_Background
            example_c example_vin).1
     "history" example_vin
     (@get_request example_range context_Background example_c
        "api.carsxe.com" "/history" example_vin)
   ∧ sends (@Carsxe.Recalls example_range example_lib context_Background
            example_c example_vin).1
     "v1/recalls" example_vin
     (@get_request example_range context_Background example_c
        "api.carsxe.com" "/v1/recalls" example_vin)
   ∧ sends (@Carsxe.InternationalVINDecoder example_range example_lib context_Background
            example_c example_vin).1
     "v1/international-vin-decoder" example_vin
     (@get_request example_range context_Background example_c
        "api.carsxe.com" "/v1/international-vin-decoder" example_vin)
   ∧ sends (@Carsxe.PlateDecoder example_range example_lib context_Background
            example_c example_vin).1
     "v2/platedecoder" example_vin
     (@get_request example_range context_Background example_c
        "api.carsxe.com" "/v2/platedecoder" example_vin)
   ∧ sends (@Carsxe.YearMakeModel example_range example_lib context_Background
            example_c example_vin).1
     "v1/ymm" example_vin
     (@get_request example_range context_Background example_c
        "api.carsxe.com" "/v1/ymm" example_vin)
   ∧ sends (@Carsxe.Images example_range example_lib context_Background
            example_c example_vin).1
     "images" example_vin
     (@get_request example_range context_Background example_c
        "api.carsxe.com" "/images" example_vin)
   ∧ sends (@Carsxe.ObdCodesDecoder example_range example_lib context_Background
            example_c example_vin).1
     "obdcodesdecoder" example_vin
     (@get_request example_range context_Background example_c
        "api.carsxe.com" "/obdcodesdecoder" example_vin))
  ∧ (sends (@CarsxePanic.Specs example_range example_lib
            example_c example_vin).1
     "specs" example_vin
     (@get_request example_range context_Background example_c
        "api.carsxe.com" "/specs" example_vin)
   ∧ sends (@CarsxePanic.MarketValue example_range example_lib
            example_c example_vin).1
     "v2/marketvalue" example_vin
     (@get_request example_range context_Background example_c
        "api.carsxe.com" "/v2/marketvalue" example_vin)
   ∧ sends (@CarsxePanic.History example_range example_lib
            example_c example_vin).1
     "history" example_vin
     (@get_request example_range context_Background example_c
        "api.carsxe.com" "/history" example_vin)
   ∧ sends (@CarsxePanic.Recalls example_range example_lib
            example_c example_vin).1
     "v1/recalls" example_vin
     (@get_request example_range context_Background example_c
        "api.carsxe.com" "/v1/recalls" example_vin)
   ∧ sends (@CarsxePanic.InternationalVINDecoder example_range example_lib
            example_c example_vin).1
     "v1/international-vin-decoder" example_vin
     (@get_request example_range context_Background example_c
        "api.carsxe.com" "/v1/international-vin-decoder" example_vin)
   ∧ sends (@CarsxePanic.PlateDecoder example_range example_lib
            example_c example_vin).1
     "v2/platedecoder" example_vin
     (@get_request example_range context_Background example_c
        "api.carsxe.com" "/v2/platedecoder" example_vin)
   ∧ sends (@CarsxePanic.YearMakeModel example_range example_lib
            example_c example_vin).1
     "v1/ymm" example_vin
     (@get_request example_range context_Background example_c
        "api.carsxe.com" "/v1/ymm" example_vin)
   ∧ sends (@CarsxePanic.Images example_range example_lib
            example_c example_vin).1
     "images" example_vin
     (@get_request example_range context_Background example_c
        "api.carsxe.com" "/images" example_vin)
   ∧ sends (@CarsxePanic.ObdCodesDecoder example_range example_lib
            example_c example_vin).1
     "obdcodesdecoder" example_vin
     (@get_request example_range context_Background example_c
        "api.carsxe.com" "/obdcodesdecoder" example_vin)).
Proof.
  apply (@Get_methods_endpoints example_range example_lib context_Background
           example_c "api.carsxe.com" example_vin); reflexivity.
Defined.

Lemma image_methods_endpoints_witness :
  @Carsxe.PlateImageRecognition example_range example_lib
    context_Background example_c example_image
  = ([CallBuildURL "platerecognition" ∅;
      HTTPDo (post_request context_Background example_c "api.carsxe.com"
                "/platerecognition" (@image_body example_lib example_image))],
     (@Carsxe.doRequest example_lib example_c
        (post_request context_Background example_c "api.carsxe.com"
           "/platerecognition"
           (@image_body example_lib example_image))).2)
  ∧ @Carsxe.VinOCR example_range example_lib
      context_Background example_c example_image
    = ([CallBuildURL "v1/vinocr" ∅;
        HTTPDo (post_request context_Background example_c "api.carsxe.com"
                  "/v1/vinocr" (@image_body example_lib example_image))],
       (@Carsxe.doRequest example_lib example_c
          (post_request context_Background example_c "api.carsxe.com"
             "/v1/vinocr" (@image_body example_lib example_image))).2)
  ∧ @CarsxePanic.PlateImageRecognition example_range example_lib
      example_c example_image
    = ([CallBuildURL "platerecognition" ∅;
        HTTPDo (post_request context_Background example_c "api.carsxe.com"
                  "/platerecognition"
                  (@image_body example_lib example_image))],
       (@CarsxePanic.doRequest example_lib example_c
          (post_request context_Background example_c "api.carsxe.com"
             "/platerecognition"
             (@image_body example_lib example_image))).2)
  ∧ @CarsxePanic.VinOCR example_range example_lib example_c example_image
    = ([CallBuildURL "v1/vinocr" ∅;
        HTTPDo (post_request context_Background example_c "api.carsxe.com"
                  "/v1/vinocr" (@image_body example_lib example_image))],
       (@CarsxePanic.doRequest example_lib example_c
          (post_request context_Background example_c "api.carsxe.com"
             "/v1/vinocr" (@image_body example_lib example_image))).2).
Proof.
  apply (@image_methods_endpoints example_range example_lib
           context_Background example_c "api.carsxe.com" example_image).
  - reflexivity.
  - reflexivity.
  - intros Hblank%TrimSpace_empty_iff. vm_compute in Hblank.
    discriminate Hblank.
Defined.

Lemma Get_success_inversion_witness :
  ∃ url req resp body,
    @Carsxe.buildURL example_range example_c "specs" example_vin = Ok url
    ∧ NetHTTP.NewRequestWithContext context_Background "GET" url None = Ok req
    ∧ [CallBuildURL "specs" example_vin; HTTPDo example_request]
      = [CallBuildURL "specs" example_vin; HTTPDo req]
    ∧ NetHTTP.Do (httpClient example_c) req = Ok resp
    ∧ NetHTTP.ReadAll_Body resp = Ok body
    ∧ (200 ≤ NetHTTP.StatusCode resp < 300)%Z
    ∧ (if String.eqb body "" then (∅ : gmap string (@any example_lib)) = ∅
       else @json_Unmarshal example_lib body = Ok ∅).
Proof.
  apply (@Get_success_inversion example_range example_lib context_Background
           example_c "specs" example_vin).
  vm_compute. reflexivity.
Defined.

Lemma doRequest_transport_error_witness :
  @Carsxe.doRequest example_lib example_offline example_request
  = ([HTTPDo example_request],
     Err (errorString "dial tcp: network is unreachable"))
  ∧ @CarsxePanic.doRequest example_lib example_offline example_request
    = ([HTTPDo example_request],
       Panic ((match NetHTTP.Do (httpClient example_offline) example_request
               with
               | Err _ => "HTTP request failed: "
               | Ok _ => "Failed to read response body: "
               end)
              +:+ @Error example_lib
                    (errorString "dial tcp: network is unreachable"))).
Proof.
  apply (@doRequest_transport_error example_lib example_offline
           example_request). reflexivity.
Defined.

Lemma doRequest_decodes_body_witness :
  @Carsxe.doRequest example_lib
    (example_client (example_response 200 "{}")) example_request
  = ([HTTPDo example_request], Ok ∅)
  ∧ @CarsxePanic.doRequest example_lib
      (example_client (example_response 200 "{}")) example_request
    = ([HTTPDo example_request], Return ∅).
Proof.
  apply (@doRequest_decodes_body example_lib
           (example_client (example_response 200 "{}")) example_request
           (example_response 200 "{}") "{}" ∅).
  - reflexivity.
  - vm_compute. split; [discriminate|reflexivity].
  - reflexivity.
  - discriminate.
  - reflexivity.
Defined.

Lemma doRequest_panic_ignores_status_witness :
  @CarsxePanic.doRequest example_lib
    (example_client (example_response 200 "{}")) example_request
  = @CarsxePanic.doRequest example_lib
      (example_client (example_response 500 "{}")) example_request.
Proof.
  apply (@doRequest_panic_ignores_status example_lib
           (example_client (example_response 200 "{}"))
           (example_client (example_response 500 "{}")) example_request
           (example_response 200 "{}") (example_response 500 "{}"));
    reflexivity.
Defined.

Lemma unparsable_base_sends_nothing_witness :
  @Carsxe.Get example_range example_lib context_Background
    (example_client_at "https://api carsxe.com") "specs" example_vin
  = ([CallBuildURL "specs" example_vin],
     Err (url_Error "parse" "https://api carsxe.com/specs"
            (InvalidHostError " ")))
  ∧ @Carsxe.postJSON example_range example_lib context_Background
      (example_client_at "https://api carsxe.com") "specs" None
    = ([CallBuildURL "specs" ∅],
       Err (url_Error "parse" "https://api carsxe.com/specs"
              (InvalidHostError " ")))
  ∧ @CarsxePanic.Get example_range example_lib
      (example_client_at "https://api carsxe.com") "specs" example_vin
    = ([CallBuildURL "specs" example_vin],
       Panic ("Failed to parse URL: "
              +:+ @Error example_lib
                    (url_Error "parse" "https://api carsxe.com/specs"
                       (InvalidHostError " "))))
  ∧ @CarsxePanic.postJSON example_range example_lib
      (example_client_at "https://api carsxe.com") "specs" None
    = ([CallBuildURL "specs" ∅],
       Panic ("Failed to parse URL: "
              +:+ @Error example_lib
                    (url_Error "parse" "https://api carsxe.com/specs"
                       (InvalidHostError " ")))).
Proof.
  apply (@unparsable_base_sends_nothing example_range example_lib
           context_Background (example_client_at "https://api carsxe.com")
           "specs" example_vin None).
  vm_compute. reflexivity.
Defined.

Lemma buildURL_query_witness :
  ∃ u, Parse (baseURL example_c +:+ "/" +:+ TrimLeft "specs" "/") = Ok u
     ∧ (∀ k, Query (api_url "/specs" "key=KEY&source=go&vin=WBAFR7C57CC811956")
               !! k
             = match caller_values example_vin k with
               | [] => client_query example_c u !! k
               | l => Some (default [] (client_query example_c u !! k) ++ l)
               end)
     ∧ (∀ k v, example_vin !! k = Some v → v ≠ "" →
               last (default []
                       (Query (api_url "/specs"
                                 "key=KEY&source=go&vin=WBAFR7C57CC811956")
                          !! k))
               = Some v)
     ∧ ParseQuery
         (@Encode example_range
            (Query (api_url "/specs"
                      "key=KEY&source=go&vin=WBAFR7C57CC811956")))
       = (Query (api_url "/specs" "key=KEY&source=go&vin=WBAFR7C57CC811956"),
          None).
Proof.
  apply (@buildURL_query example_range example_lib example_c "specs"
           example_vin).
  left. vm_compute. reflexivity.
Defined.

End further_examples.
